(** * Language-selection and translation workflow

    A shallow embedding of [functions/language_handler.py] together with the
    parts of [functions/translation_utils.py] and [functions/bedrock_utils.py]
    it calls, and the properties of the workflow proved over that embedding.

    - A Python [str] is the list of its Unicode code points.
    - A Python [dict] with string keys is a [gmap].
    - Code that talks to Firestore, Google Translate or Bedrock runs in a small
      state-and-exception monad over a [World]; what the outside answers
      (including every failure) is given by an [Env]. *)

From Stdlib Require Import String Ascii NArith List Lia.
From stdpp Require Import gmap list option.

Open Scope N_scope.

(** ** Python strings *)

Module PyStr.

(** A [str] value: its code points, in order. *)
Abbreviation pystr := (list N).

Definition bytes_of (s : string) : list N :=
  map N_of_ascii (list_ascii_of_string s).

(** Decoder for the UTF-8 text of a source literal. *)
Fixpoint utf8_decode (bs : list N) : pystr :=
  match bs with
  | [] => []
  | b0 :: r0 =>
    if b0 <? 128 then b0 :: utf8_decode r0
    else match r0 with
    | [] => []
    | b1 :: r1 =>
      if b0 <? 224 then ((b0 - 192) * 64 + (b1 - 128)) :: utf8_decode r1
      else match r1 with
      | [] => []
      | b2 :: r2 =>
        if b0 <? 240
        then ((b0 - 224) * 4096 + (b1 - 128) * 64 + (b2 - 128)) :: utf8_decode r2
        else match r2 with
        | [] => []
        | b3 :: r3 =>
          ((b0 - 240) * 262144 + (b1 - 128) * 4096 + (b2 - 128) * 64 + (b3 - 128))
            :: utf8_decode r3
        end
      end
    end
  end.

(** [u "..."] is the [str] written as that literal in the source. *)
Definition u (s : string) : pystr := utf8_decode (bytes_of s).

(** Truth value of a [str], and of an [Optional[str]]: [None] and [''] are
    false. *)
Definition truthy (s : pystr) : bool :=
  match s with [] => false | _ :: _ => true end.

Definition truthy_opt (o : option pystr) : bool :=
  match o with Some s => truthy s | None => false end.

(** [s == t] on strings. *)
Definition str_eqb (s t : pystr) : bool := bool_decide (s = t).

(** [s.startswith(prefix)]. *)
Fixpoint startswith (s prefix : pystr) : bool :=
  match prefix with
  | [] => true
  | p :: ps =>
    match s with
    | [] => false
    | c :: cs => (c =? p) && startswith cs ps
    end
  end.

(** [s.replace(old, new)] for non-empty [old]: every non-overlapping
    occurrence, scanning from the left.  [skip] counts the code points of an
    occurrence already replaced that are still to be passed over. *)
Fixpoint replace_from (old new : pystr) (skip : nat) (s : pystr) : pystr :=
  match s with
  | [] => []
  | c :: r =>
    match skip with
    | S k => replace_from old new k r
    | O =>
      if startswith s old
      then new ++ replace_from old new (Nat.pred (length old)) r
      else c :: replace_from old new O r
    end
  end.

(** [s.replace(old, new)]; with an empty [old] Python puts [new] before every
    code point and at the end. *)
Definition py_replace (s old new : pystr) : pystr :=
  match old with
  | [] => new ++ concat (map (fun c => c :: new) s)
  | _ :: _ => replace_from old new O s
  end.

(** Code points for which [str.isspace] holds; [str.strip()] removes these. *)
Definition is_space (c : N) : bool :=
  ((9 <=? c) && (c <=? 13)) || ((28 <=? c) && (c <=? 32))
  || (c =? 133) || (c =? 160) || (c =? 5760)
  || ((8192 <=? c) && (c <=? 8202))
  || (c =? 8232) || (c =? 8233) || (c =? 8239) || (c =? 8287) || (c =? 12288).

Fixpoint lstrip (s : pystr) : pystr :=
  match s with
  | [] => []
  | c :: r => if is_space c then lstrip r else s
  end.

Definition rstrip (s : pystr) : pystr := rev (lstrip (rev s)).

(** [s.strip()]. *)
Definition py_strip (s : pystr) : pystr := rstrip (lstrip s).

(** Lower-casing of an ASCII code point. *)
Definition ascii_lower (c : N) : N :=
  if (65 <=? c) && (c <=? 90) then c + 32 else c.

Section Lower.

(** The lower-case expansion the interpreter's Unicode database gives to a
    code point above ASCII, which may depend on the text before and after it
    (final sigma).  The table is not part of the repository. *)
Variable unicode_lower : pystr -> N -> pystr -> pystr.

Fixpoint lower_from (before s : pystr) : pystr :=
  match s with
  | [] => []
  | c :: after =>
    (if c <? 128 then [ascii_lower c] else unicode_lower before c after)
      ++ lower_from (before ++ [c]) after
  end.

(** [s.lower()]. *)
Definition py_lower (s : pystr) : pystr := lower_from [] s.

End Lower.

End PyStr.

Import PyStr.

(** Literals are compared as written; [vm_compute] decodes them. *)
Opaque u.

(** ** functions/language_handler.py: the selection-intent parser *)

(** The dictionary literal [language_map] of [is_language_selection_response]. *)
Definition language_map : gmap pystr pystr :=
  list_to_map
    [ (u "english", u "en"); (u "tamil", u "ta"); (u "malayalam", u "ml");
      (u "en", u "en"); (u "ta", u "ta"); (u "ml", u "ml") ].

Section Parser.

Variable unicode_lower : pystr -> N -> pystr -> pystr.

(** [is_language_selection_response(message_text, payload)]. *)
Definition is_language_selection_response
    (message_text : pystr) (payload : option pystr) : option pystr :=
  let text_lower := py_strip (py_lower unicode_lower message_text) in
  let by_text := language_map !! text_lower in
  match payload with
  | Some p =>
    if truthy p then
      if startswith p (u "LANG_") then Some (py_replace p (u "LANG_") [])
      else if startswith p (u "lang_") then Some (py_replace p (u "lang_") [])
      else by_text
    else by_text
  | None => by_text
  end.

End Parser.


(** ** The outside world *)

(** A raised exception. *)
Inductive exn : Type :=
| ValueError (msg : pystr)
| Error (msg : pystr).

(** How a call ends: it returns a value or raises. *)
Inductive outcome (A : Type) : Type :=
| Returns (a : A)
| Raises (e : exn).
Arguments Returns {A} a.
Arguments Raises {A} e.

(** A Firestore document: its fields.  Field values are strings. *)
Abbreviation document := (gmap pystr pystr).

(** A document of a streamed collection, with its id. *)
Record DocumentSnapshot : Type := {
  doc_id : pystr;
  doc_to_dict : document
}.

(** What a run does, in order: entries into the functions of
    [translation_utils] and [bedrock_utils] ([Call_...]), and the requests
    sent to Firestore, Google Translate and Bedrock ([Req_...]).  The source
    keeps no such record; it is kept here so that which calls a run makes, and
    in which order, can be stated. *)
Inductive Event : Type :=
| Call_get_supported_languages
| Call_translate_text (text target_language : pystr) (source_language : option pystr)
| Call_detect_language (text : pystr)
| Call_get_user_language (platform user_id : pystr)
| Call_set_user_language (platform user_id language_code : pystr)
| Call_is_language_supported (language_code : pystr)
| Call_invoke_bedrock_agent (user_message session_id : pystr) (user_id : option pystr)
| Req_firestore_stream (collection : pystr)
| Req_firestore_get (collection doc : pystr)
| Req_firestore_set_merge (collection doc : pystr) (fields : document)
| Req_translate (text target_language : pystr) (source_language : option pystr)
| Req_detect (text : pystr)
| Req_invoke_agent (agent_id agent_alias_id session_id input_text : pystr).

(** The state threaded through a run: the user-details documents, keyed by
    collection name and document id, and the events so far. *)
Record World : Type := {
  users : gmap (pystr * pystr) document;
  trace : list Event
}.

(** The answers of everything outside the source.  A request's answer may
    depend on its position in the trace, so two requests of one run can be
    answered differently. *)
Record Env : Type := {
  (** [translate_client] is not [None]: [translate.Client()] succeeded at import. *)
  translate_client : bool;
  (** Streaming [ss_language_support], then reading every document. *)
  ss_language_support : nat -> outcome (list DocumentSnapshot);
  (** Whether [user_ref.get()] / [user_ref.set(..., merge=True)] raises. *)
  firestore_get_fault : nat -> option exn;
  firestore_set_fault : nat -> option exn;
  (** [translate_client.translate(...)['translatedText']]. *)
  google_translate : nat -> pystr -> pystr -> option pystr -> outcome pystr;
  (** [translate_client.detect_language(text)['language']]. *)
  google_detect : nat -> pystr -> outcome pystr;
  (** [os.environ.get]. *)
  environ : pystr -> option pystr;
  (** [boto3.client(...)] raising for a region and credentials. *)
  boto3_client_fault : pystr -> pystr -> pystr -> option exn;
  (** [client.invoke_agent(...)] and the reading of its event stream: for each
      event, the decoded bytes of its chunk when it has one. *)
  bedrock_invoke_agent :
    nat -> pystr -> pystr -> pystr -> pystr -> outcome (list (option pystr))
}.

(** ** The monad of effectful code *)

Definition M (A : Type) : Type := World -> outcome A * World.

Definition ret {A} (a : A) : M A := fun w => (Returns a, w).

Definition raise {A} (e : exn) : M A := fun w => (Raises e, w).

Definition bind {A B} (m : M A) (k : A -> M B) : M B :=
  fun w =>
    match m w with
    | (Returns a, w') => k a w'
    | (Raises e, w') => (Raises e, w')
    end.

(** [try: m  except Exception as e: h e]. *)
Definition try_except {A} (m : M A) (h : exn -> M A) : M A :=
  fun w =>
    match m w with
    | (Returns a, w') => (Returns a, w')
    | (Raises e, w') => h e w'
    end.

Declare Scope py_scope.
Delimit Scope py_scope with py.
Notation "x <- m ;; k" := (bind m (fun x => k))
  (at level 100, m at next level, right associativity) : py_scope.
Notation "m ;; k" := (bind m (fun _ => k))
  (at level 100, right associativity) : py_scope.
Open Scope py_scope.

Definition record (ev : Event) (w : World) : World :=
  {| users := users w; trace := trace w ++ [ev] |}.

(** Entry into a function. *)
Definition called (ev : Event) : M unit := fun w => (Returns tt, record ev w).

(** A request whose answer does not depend on the stored documents. *)
Definition request {A} (ev : Event) (answer : nat -> outcome A) : M A :=
  fun w => (answer (length (trace w)), record ev w).

Section Services.

Variable unicode_lower : pystr -> N -> pystr -> pystr.
Variable env : Env.

(** [db.collection(collection).document(doc).get()]: the document, or [None]
    when it does not exist. *)
Definition firestore_get (collection doc : pystr) : M (option document) :=
  fun w =>
    match firestore_get_fault env (length (trace w)) with
    | Some e => (Raises e, record (Req_firestore_get collection doc) w)
    | None =>
      (Returns (users w !! (collection, doc)),
       record (Req_firestore_get collection doc) w)
    end.

(** [db.collection(collection).document(doc).set(fields, merge=True)]: the
    given fields overwrite, the document's other fields stay. *)
Definition firestore_set_merge (collection doc : pystr) (fields : document)
    : M unit :=
  fun w =>
    match firestore_set_fault env (length (trace w)) with
    | Some e => (Raises e, record (Req_firestore_set_merge collection doc fields) w)
    | None =>
      (Returns tt,
       record (Req_firestore_set_merge collection doc fields)
         {| users :=
              <[(collection, doc) :=
                  fields ∪ default ∅ (users w !! (collection, doc))]> (users w);
            trace := trace w |})
    end.

(** *** functions/translation_utils.py *)

Record LanguageOption : Type := { code : pystr; name : pystr }.

Definition default_languages : list LanguageOption :=
  [ {| code := u "en"; name := u "English" |};
    {| code := u "ta"; name := u "Tamil" |};
    {| code := u "ml"; name := u "Malayalam" |} ].

(** [get_supported_languages(db)]. *)
Definition get_supported_languages : M (list LanguageOption) :=
  called Call_get_supported_languages ;;
  try_except
    (docs <- request (Req_firestore_stream (u "ss_language_support"))
               (ss_language_support env) ;;
     let languages :=
       map (fun doc =>
              let lang_data := doc_to_dict doc in
              {| code := default (doc_id doc) (lang_data !! u "code");
                 name := default (doc_id doc) (lang_data !! u "name") |})
           docs in
     ret (match languages with
          | [] => default_languages
          | _ :: _ => languages
          end))
    (fun _ => ret default_languages).

(** [detect_language(text)]. *)
Definition detect_language (text : pystr) : M pystr :=
  called (Call_detect_language text) ;;
  if negb (translate_client env) then ret (u "en")
  else
    try_except
      (request (Req_detect text) (fun n => google_detect env n text))
      (fun _ => ret (u "en")).

(** [translate_text(text, target_language, source_language=None)]. *)
Definition translate_text
    (text target_language : pystr) (source_language : option pystr) : M pystr :=
  called (Call_translate_text text target_language source_language) ;;
  if negb (translate_client env) then ret text
  else
    already_english <-
      (if str_eqb target_language (u "en") && negb (truthy_opt source_language)
       then detected <- detect_language text ;; ret (str_eqb detected (u "en"))
       else ret false) ;;
    if (already_english : bool) then ret text
    else
      try_except
        (request (Req_translate text target_language source_language)
           (fun n => google_translate env n text target_language source_language))
        (fun _ => ret text).

(** The collection [f"ss_{platform}_user_details"]. *)
Definition user_details (platform : pystr) : pystr :=
  u "ss_" ++ platform ++ u "_user_details".

(** [get_user_language(db, platform, user_id)]. *)
Definition get_user_language (platform user_id : pystr) : M (option pystr) :=
  called (Call_get_user_language platform user_id) ;;
  try_except
    (user_doc <- firestore_get (user_details platform) user_id ;;
     match user_doc with
     | Some user_data => ret (user_data !! u "preferred_language")
     | None => ret None
     end)
    (fun _ => ret None).

(** [set_user_language(db, platform, user_id, language_code)]. *)
Definition set_user_language (platform user_id language_code : pystr) : M bool :=
  called (Call_set_user_language platform user_id language_code) ;;
  try_except
    (firestore_set_merge (user_details platform) user_id
       {[ u "preferred_language" := language_code ]} ;;
     ret true)
    (fun _ => ret false).

(** [is_language_supported(db, language_code)]. *)
Definition is_language_supported (language_code : pystr) : M bool :=
  called (Call_is_language_supported language_code) ;;
  supported_languages <- get_supported_languages ;;
  let supported_codes := map code supported_languages in
  ret (bool_decide (language_code ∈ supported_codes)).

(** *** functions/bedrock_utils.py *)

(** [get_config(key)]. *)
Definition get_config (key : pystr) : option pystr := environ env key.

(** [get_bedrock_client()]: the region the client is made for. *)
Definition get_bedrock_client : M pystr :=
  let aws_access_key := get_config (u "AWS_ACCESS_KEY") in
  let aws_secret_key := get_config (u "AWS_SECRET_KEY") in
  let aws_region :=
    if truthy_opt (get_config (u "AWS_REGION"))
    then default [] (get_config (u "AWS_REGION"))
    else u "us-east-1" in
  match aws_access_key, aws_secret_key with
  | Some access, Some secret =>
    if truthy access && truthy secret then
      match boto3_client_fault env aws_region access secret with
      | Some e => raise e
      | None => ret aws_region
      end
    else raise (ValueError (u "AWS credentials not configured."))
  | _, _ => raise (ValueError (u "AWS credentials not configured."))
  end.

Record AgentResult : Type := {
  agent_response : pystr;
  agent_session_id : pystr
}.

(** The text of the chunks of an event stream, joined in arrival order. *)
Definition completion_of (events : list (option pystr)) : pystr :=
  concat (map (default []) events).

(** [invoke_bedrock_agent(user_message, session_id, user_id=None)]. *)
Definition invoke_bedrock_agent
    (user_message session_id : pystr) (user_id : option pystr) : M AgentResult :=
  called (Call_invoke_bedrock_agent user_message session_id user_id) ;;
  match get_config (u "AWS_BEDROCK_AGENT_ID"),
        get_config (u "AWS_BEDROCK_AGENT_ALIAS_ID") with
  | Some agent_id, Some agent_alias_id =>
    if truthy agent_id && truthy agent_alias_id then
      try_except
        (get_bedrock_client ;;
         events <- request
                     (Req_invoke_agent agent_id agent_alias_id session_id user_message)
                     (fun n => bedrock_invoke_agent env n agent_id agent_alias_id
                                 session_id user_message) ;;
         ret {| agent_response := py_strip (completion_of events);
                agent_session_id := session_id |})
        (fun e => raise e)
    else raise (ValueError (u "AWS Bedrock Agent ID or Alias ID not configured."))
  | _, _ => raise (ValueError (u "AWS Bedrock Agent ID or Alias ID not configured."))
  end.

(** *** functions/language_handler.py: the workflow *)

Record QuickReply : Type := { title : pystr; payload : pystr }.

Record Button : Type := { id : pystr; button_title : pystr }.

(** The dictionary returned by [process_message_with_translation]. *)
Record ResponseDescriptor : Type := {
  response : pystr;
  quick_replies : option (list QuickReply);
  buttons : option (list Button)
}.

Definition prompt_text : pystr :=
  u "Welcome! 🌍

What's your preferred language?
உங்கள் விருப்ப மொழி என்ன?
നിങ്ങളുടെ ഇഷ്ടമുള്ള ഭാഷ എന്താണ്?".

(** [create_language_selection_prompt(db)]. *)
Definition create_language_selection_prompt
    : M (pystr * list QuickReply * list Button) :=
  supported_languages <- get_supported_languages ;;
  let quick_replies :=
    map (fun lang => {| title := name lang; payload := u "LANG_" ++ code lang |})
        supported_languages in
  let buttons :=
    map (fun lang => {| id := u "lang_" ++ code lang; button_title := name lang |})
        (take 3 supported_languages) in
  ret (prompt_text, quick_replies, buttons).

Definition confirmations : gmap pystr pystr :=
  list_to_map
    [ (u "en", u "✅ Language set to English! How can I help you today?");
      (u "ta", u "✅ மொழி தமிழ் என அமைக்கப்பட்டது! இன்று நான் உங்களுக்கு எப்படி உதவ முடியும்?");
      (u "ml", u "✅ ഭാഷ മലയാളം ആയി സജ്ജമാക്കി! ഇന്ന് ഞാൻ നിങ്ങളെ എങ്ങനെ സഹായിക്കും?") ].

Definition error_messages : gmap pystr pystr :=
  list_to_map
    [ (u "en", u "❌ Sorry, I encountered an error. Please try again.");
      (u "ta", u "❌ மன்னிக்கவும், ஒரு பிழை ஏற்பட்டது. மீண்டும் முயற்சிக்கவும்.");
      (u "ml", u "❌ ക്ഷമിക്കണം, എനിക്ക് ഒരു പിശക് നേരിട്ടു. വീണ്ടും ശ്രമിക്കുക.") ].

(** [d.get(key, d['en'])]. *)
Definition get_or_en (d : gmap pystr pystr) (key : pystr) : pystr :=
  default (d !!! u "en") (d !! key).

(** A descriptor that carries only text. *)
Definition text_only (text : pystr) : ResponseDescriptor :=
  {| response := text; quick_replies := None; buttons := None |}.

(** The [else] branch of case 1: show the language selection prompt. *)
Definition show_prompt : M ResponseDescriptor :=
  prompt <- create_language_selection_prompt ;;
  let '(text, replies, btns) := prompt in
  ret {| response := text; quick_replies := Some replies; buttons := Some btns |}.

(** Case 2 of [process_message_with_translation]: the [try] block and its
    handler, for a user whose language is [user_language]. *)
Definition translation_pipeline
    (user_id message_text user_language : pystr) : M ResponseDescriptor :=
  try_except
    (english_message <-
       (if negb (str_eqb user_language (u "en"))
        then translate_text message_text (u "en") (Some user_language)
        else ret message_text) ;;
     agent_result <- invoke_bedrock_agent english_message user_id (Some user_id) ;;
     let english_response := agent_response agent_result in
     translated_response <-
       (if negb (str_eqb user_language (u "en"))
        then translate_text english_response user_language (Some (u "en"))
        else ret english_response) ;;
     ret (text_only translated_response))
    (fun _ => ret (text_only (get_or_en error_messages user_language))).

(** Case 1 of [process_message_with_translation]: the user has not selected
    a language yet. *)
Definition language_selection
    (platform user_id message_text : pystr) (payload : option pystr)
    : M ResponseDescriptor :=
  let selected_lang :=
    is_language_selection_response unicode_lower message_text payload in
  match selected_lang with
  | Some selected =>
    if truthy selected then
      supported <- is_language_supported selected ;;
      if (supported : bool) then
        set_user_language platform user_id selected ;;
        ret (text_only (get_or_en confirmations selected))
      else show_prompt
    else show_prompt
  | None => show_prompt
  end.

(** [process_message_with_translation(db, platform, user_id, message_text,
    payload=None)]. *)
Definition process_message_with_translation
    (platform user_id message_text : pystr) (payload : option pystr)
    : M ResponseDescriptor :=
  user_language <- get_user_language platform user_id ;;
  match user_language with
  | Some lang =>
    if truthy lang
    then translation_pipeline user_id message_text lang
    else language_selection platform user_id message_text payload
  | None => language_selection platform user_id message_text payload
  end.

End Services.

(** ** Vocabulary of the properties *)

(** [c] is the letter [k] in lower or in upper case. *)
Definition letter_of (k c : N) : Prop := c = k \/ c + 32 = k.

(** A text made of white space only. *)
Abbreviation spaces ws := (Forall (fun c => is_space c = true) ws).

(** A payload that does not select: absent, or without either prefix. *)
Definition no_payload_selection (payload : option pystr) : Prop :=
  match payload with
  | None => True
  | Some p => startswith p (u "LANG_") = false /\ startswith p (u "lang_") = false
  end.

(** The preference stored for a user: the [preferred_language] field of the
    user's document, when both exist. *)
Definition stored_preference (w : World) (platform user_id : pystr)
    : option pystr :=
  users w !! (user_details platform, user_id)
    ≫= (fun user_data => user_data !! u "preferred_language").

(** [w] after the events [evs], with the same documents. *)
Definition extend (w : World) (evs : list Event) : World :=
  {| users := users w; trace := trace w ++ evs |}.

(** The events a run from [w] to [w'] added. *)
Definition new_events (w w' : World) : list Event :=
  drop (length (trace w)) (trace w').

(** Events of the translation gateway and of the translation service. *)
Definition is_translation_event (ev : Event) : bool :=
  match ev with
  | Call_translate_text _ _ _ | Call_detect_language _
  | Req_translate _ _ _ | Req_detect _ => true
  | _ => false
  end.

(** Entries into the agent gateway. *)
Definition is_agent_call (ev : Event) : bool :=
  match ev with
  | Call_invoke_bedrock_agent _ _ _ => true
  | _ => false
  end.

(** Calls of the workflow into the translation and agent gateways. *)
Definition is_gateway_call (ev : Event) : bool :=
  match ev with
  | Call_translate_text _ _ _ | Call_invoke_bedrock_agent _ _ _ => true
  | _ => false
  end.

(** A translation step of the pipeline for a user whose language is
    [user_language], started in [w]: skipped for English; otherwise one call
    of [translate_text], which returns [translated] and adds the events
    [evs], its own entry first and no other gateway call. *)
Definition translation_step (env : Env)
    (user_language text target_language : pystr) (source_language : option pystr)
    (w : World) (translated : pystr) (evs : list Event) : Prop :=
  if str_eqb user_language (u "en")
  then translated = text /\ evs = []
  else exists rest,
      evs = Call_translate_text text target_language source_language :: rest /\
      Forall (fun ev => is_gateway_call ev = false) rest /\
      translate_text env text target_language source_language w
      = (Returns translated, extend w evs).

(** ** Concrete environments and worlds *)

(** A Unicode table without case above ASCII. *)
Definition caseless : pystr -> N -> pystr -> pystr := fun _ c _ => [c].

(** Nothing fails, nothing is configured: no translation client, an empty
    language collection, no agent identity. *)
Definition quiet_env : Env := {|
  translate_client := false;
  ss_language_support := fun _ => Returns [];
  firestore_get_fault := fun _ => None;
  firestore_set_fault := fun _ => None;
  google_translate := fun _ text _ _ => Returns text;
  google_detect := fun _ _ => Returns (u "en");
  environ := fun _ => None;
  boto3_client_fault := fun _ _ _ => None;
  bedrock_invoke_agent := fun _ _ _ _ _ => Returns []
|}.

(** As [quiet_env], but every write of a user document raises. *)
Definition write_fails_env : Env := {|
  translate_client := false;
  ss_language_support := fun _ => Returns [];
  firestore_get_fault := fun _ => None;
  firestore_set_fault := fun _ => Some (Error (u "unavailable"));
  google_translate := fun _ text _ _ => Returns text;
  google_detect := fun _ _ => Returns (u "en");
  environ := fun _ => None;
  boto3_client_fault := fun _ _ _ => None;
  bedrock_invoke_agent := fun _ _ _ _ _ => Returns []
|}.


(** Everything works: the translation service marks a text with its target
    language, the agent answers in two chunks, the directory holds one
    document, for Hindi. *)
Definition working_env : Env := {|
  translate_client := true;
  ss_language_support :=
    fun _ => Returns [ {| doc_id := u "hi";
                          doc_to_dict := {[ u "name" := u "Hindi" ]} |} ];
  firestore_get_fault := fun _ => None;
  firestore_set_fault := fun _ => None;
  google_translate :=
    fun _ text target_language _ => Returns (target_language ++ u ":" ++ text);
  google_detect := fun _ _ => Returns (u "en");
  environ := fun _ => Some (u "configured");
  boto3_client_fault := fun _ _ _ => None;
  bedrock_invoke_agent :=
    fun _ _ _ _ _ => Returns [Some (u " Hello"); None; Some (u " there ")]
|}.

(** As [working_env], but every translate request raises. *)
Definition translate_fails_env : Env := {|
  translate_client := true;
  ss_language_support := fun _ => Returns [];
  firestore_get_fault := fun _ => None;
  firestore_set_fault := fun _ => None;
  google_translate := fun _ _ _ _ => Raises (Error (u "unavailable"));
  google_detect := fun _ _ => Returns (u "ta");
  environ := fun _ => Some (u "configured");
  boto3_client_fault := fun _ _ _ => None;
  bedrock_invoke_agent := fun _ _ _ _ _ => Returns [Some (u "Hello")]
|}.

(** No user document yet. *)
Definition fresh_world : World := {| users := ∅; trace := [] |}.

(** The Facebook user [1001] has the stored preference [lang]. *)
Definition user_world (lang : pystr) : World :=
  {| users := {[ (user_details (u "facebook"), u "1001")
                 := {[ u "preferred_language" := lang ]} ]};
     trace := [] |}.

(** ** Further vocabulary *)

(** [old] occurs somewhere in [s]. *)
Fixpoint occurs (old s : pystr) : bool :=
  match s with
  | [] => startswith [] old
  | _ :: r => startswith s old || occurs old r
  end.

(** Every event that a computation adds, started in any world, satisfies
    [P]. *)
Definition emits {A} (P : Event -> Prop) (m : M A) : Prop :=
  forall w, exists evs, trace (snd (m w)) = trace w ++ evs /\ Forall P evs.

(** A computation that writes no user document. *)
Definition read_only {A} (m : M A) : Prop :=
  forall w, users (snd (m w)) = users w.

(** Entries into language detection and detection requests. *)
Definition is_detection_event (ev : Event) : bool :=
  match ev with
  | Call_detect_language _ | Req_detect _ => true
  | _ => false
  end.

(** Events of the agent gateway and of the agent service. *)
Definition is_agent_event (ev : Event) : bool :=
  match ev with
  | Call_invoke_bedrock_agent _ _ _ | Req_invoke_agent _ _ _ _ => true
  | _ => false
  end.

(** An agent event, if [ev] is one, carries [user_id] as its session. *)
Definition session_is (user_id : pystr) (ev : Event) : Prop :=
  match ev with
  | Call_invoke_bedrock_agent _ session_id uid =>
    session_id = user_id /\ uid = Some user_id
  | Req_invoke_agent _ _ session_id _ => session_id = user_id
  | _ => True
  end.

(** A translation call or request, if [ev] is one, names its source
    language. *)
Definition names_source (ev : Event) : Prop :=
  match ev with
  | Call_translate_text _ _ source | Req_translate _ _ source =>
    truthy_opt source = true
  | _ => True
  end.

(** ** functions/common.py: the outbound transports *)

(** [a or b] on optional strings. *)
Definition py_or (a b : option pystr) : option pystr :=
  if truthy_opt a then a else b.

(** [get_remote_config(key)]. *)
Definition get_remote_config (env : Env) (key : pystr) : option pystr :=
  get_config env key.

(** One entry of the [quick_replies] list of a Messenger message. *)
Record MessengerQuickReply : Type := {
  content_type : pystr;
  reply_title : pystr;
  reply_payload : pystr
}.

(** One entry of the [buttons] list of a WhatsApp interactive message:
    [{"type": ..., "reply": {"id": ..., "title": ...}}]. *)
Record WhatsAppButton : Type := {
  button_type : pystr;
  reply : Button
}.

(** The JSON body of a posted request. *)
Inductive PostBody : Type :=
| MessengerMessage
    (recipient_id text : pystr) (message_quick_replies : option (list MessengerQuickReply))
| WhatsAppText (to body_text : pystr)
| WhatsAppInteractive (to body_text : pystr) (action_buttons : list WhatsAppButton).

(** A call of [requests.post]. *)
Record HttpPost : Type := {
  url : pystr;
  authorization : option pystr;
  json : PostBody
}.

Section Transports.

Variable env : Env.

(** [requests.post(...)] followed by [raise_for_status()]. *)
Variable post : HttpPost -> outcome unit.

(** The [try] block around the post: a failure is logged and dropped. *)
Definition post_and_log (request : HttpPost) : outcome unit * list HttpPost :=
  match post request with
  | Returns _ => (Returns tt, [request])
  | Raises _ => (Returns tt, [request])
  end.

(** The message of Facebook and Instagram: quick replies are added when the
    list is given and not empty. *)
Definition messenger_message
    (recipient_id text : pystr) (quick_replies : option (list QuickReply))
    : PostBody :=
  MessengerMessage recipient_id text
    match quick_replies with
    | Some (qr :: rest) =>
      Some (map (fun qr => {| content_type := u "text";
                              reply_title := title qr;
                              reply_payload := payload qr |})
                (qr :: rest))
    | _ => None
    end.

(** [send_facebook_message(recipient_id, text, quick_replies=None)]: the
    result and the requests posted. *)
Definition send_facebook_message
    (recipient_id text : pystr) (quick_replies : option (list QuickReply))
    : outcome unit * list HttpPost :=
  match get_remote_config env (u "FACEBOOK_PAGE_ACCESS_TOKEN") with
  | Some page_access_token =>
    if truthy page_access_token then
      post_and_log
        {| url := u "https://graph.facebook.com/v19.0/me/messages?access_token="
                    ++ page_access_token;
           authorization := None;
           json := messenger_message recipient_id text quick_replies |}
    else (Returns tt, [])
  | None => (Returns tt, [])
  end.

(** [send_instagram_message(recipient_id, text, quick_replies=None)]. *)
Definition send_instagram_message
    (recipient_id text : pystr) (quick_replies : option (list QuickReply))
    : outcome unit * list HttpPost :=
  match py_or (get_remote_config env (u "INSTAGRAM_PAGE_ACCESS_TOKEN"))
              (get_remote_config env (u "FACEBOOK_PAGE_ACCESS_TOKEN")) with
  | Some page_access_token =>
    if truthy page_access_token then
      post_and_log
        {| url := u "https://graph.facebook.com/v19.0/me/messages?access_token="
                    ++ page_access_token;
           authorization := None;
           json := messenger_message recipient_id text quick_replies |}
    else (Returns tt, [])
  | None => (Returns tt, [])
  end.

(** [send_whatsapp_message(recipient_phone, text, buttons=None)]. *)
Definition send_whatsapp_message
    (recipient_phone text : pystr) (buttons : option (list Button))
    : outcome unit * list HttpPost :=
  match py_or (get_remote_config env (u "WHATSAPP_ACCESS_TOKEN"))
              (get_remote_config env (u "FACEBOOK_PAGE_ACCESS_TOKEN")),
        get_remote_config env (u "WHATSAPP_PHONE_NUMBER_ID") with
  | Some access_token, Some phone_number_id =>
    if truthy access_token && truthy phone_number_id then
      let interactive :=
        match buttons with
        | Some (btn :: rest) => (length (btn :: rest) <=? 3)%nat
        | _ => false
        end in
      post_and_log
        {| url := u "https://graph.facebook.com/v19.0/" ++ phone_number_id
                    ++ u "/messages";
           authorization := Some (u "Bearer " ++ access_token);
           json :=
             if interactive then
               WhatsAppInteractive recipient_phone text
                 (map (fun btn => {| button_type := u "reply"; reply := btn |})
                      (take 3 (default [] buttons)))
             else WhatsAppText recipient_phone text |}
    else (Returns tt, [])
  | _, _ => (Returns tt, [])
  end.

End Transports.

(** ** Further concrete environments *)


(** A post that always fails. *)
Definition failing_post : HttpPost -> outcome unit :=
  fun _ => Raises (Error (u "unavailable")).

(** The three buttons of the seed languages. *)
Definition seed_buttons : list Button :=
  [ {| id := u "lang_en"; button_title := u "English" |};
    {| id := u "lang_ta"; button_title := u "Tamil" |};
    {| id := u "lang_ml"; button_title := u "Malayalam" |} ].

(** ** Proof tactics *)

(** Unfolds the operations of the monad. *)
Ltac run_monad :=
  unfold bind, ret, raise, try_except, called, request in *; simpl in *.

(** Closes an equation between two runs that differ in the bracketing of
    their traces only. *)
Ltac same_run :=
  unfold extend, record; simpl; rewrite <- ?app_assoc; simpl; reflexivity.

(** ** Facts about Python strings *)

Section StringFacts.

Variable unicode_lower : pystr -> N -> pystr -> pystr.

Lemma is_space_ascii_lower c :
  is_space c = true -> c < 128 -> ascii_lower c = c.
Proof.
  intros Hs Hc. unfold ascii_lower.
  destruct ((65 <=? c) && (c <=? 90)) eqn:E; [|reflexivity].
  exfalso. apply andb_true_iff in E as [E1 E2].
  apply N.leb_le in E1, E2. unfold is_space in Hs.
  repeat (apply orb_true_iff in Hs as [Hs|Hs]);
    repeat (apply andb_true_iff in Hs as [? ?]);
    repeat match goal with
           | H : (_ <=? _) = true |- _ => apply N.leb_le in H
           | H : (_ =? _) = true |- _ => apply N.eqb_eq in H
           end; lia.
Qed.

(** Lower-casing leading white space gives white space, when the Unicode
    table does so above ASCII. *)
Lemma lower_from_spaces before ws s :
  (forall b c a, 128 <= c -> is_space c = true ->
                 Forall (fun d => is_space d = true) (unicode_lower b c a)) ->
  Forall (fun c => is_space c = true) ws ->
  exists ws',
    Forall (fun c => is_space c = true) ws' /\
    lower_from unicode_lower before (ws ++ s)
    = ws' ++ lower_from unicode_lower (before ++ ws) s.
Proof.
  intros Hul Hws. revert before.
  induction Hws as [|c ws Hc Hws IH]; intros before; simpl.
  - exists []. rewrite app_nil_r. by split.
  - destruct (IH (before ++ [c])) as (ws' & Hws' & ->).
    rewrite <- app_assoc. simpl.
    destruct (c <? 128) eqn:E.
    + apply N.ltb_lt in E. rewrite is_space_ascii_lower by done.
      exists (c :: ws'). split; [by constructor | done].
    + apply N.ltb_ge in E.
      eexists (_ ++ ws'). split; [|by rewrite <- app_assoc].
      apply Forall_app. split; [by apply Hul | done].
Qed.

Lemma lower_from_letters before word v s :
  Forall (fun k => 97 <= k <= 122) word ->
  Forall2 letter_of word v ->
  lower_from unicode_lower before (v ++ s)
  = word ++ lower_from unicode_lower (before ++ v) s.
Proof.
  intros Hw Hv. revert before Hw.
  induction Hv as [|k c word v Hc Hv IH]; intros before Hw; simpl.
  - by rewrite app_nil_r.
  - inversion Hw as [|? ? Hk Hw']; subst.
    rewrite (IH (before ++ [c]) Hw'), <- app_assoc. simpl. clear IH.
    assert (c < 128) as Hlt by (destruct Hc; lia).
    apply N.ltb_lt in Hlt. rewrite Hlt. simpl. f_equal.
    unfold ascii_lower. destruct Hc as [->| <-].
    + replace ((65 <=? k) && (k <=? 90)) with false; [done|].
      symmetry. apply andb_false_iff. right. apply N.leb_gt. lia.
    + replace ((65 <=? c) && (c <=? 90)) with true; [done|].
      symmetry. apply andb_true_iff. split; apply N.leb_le; lia.
Qed.

Lemma letter_not_space k : 97 <= k <= 122 -> is_space k = false.
Proof.
  intros Hk. unfold is_space.
  repeat match goal with
         | |- context [?a <=? ?b] =>
           first [ rewrite (proj2 (N.leb_le a b)) by lia
                 | rewrite (proj2 (N.leb_gt a b)) by lia ]
         | |- context [?a =? ?b] => rewrite (proj2 (N.eqb_neq a b)) by lia
         end.
  reflexivity.
Qed.

Lemma lstrip_spaces ws s :
  Forall (fun c => is_space c = true) ws -> lstrip (ws ++ s) = lstrip s.
Proof.
  induction 1 as [|c ws Hc _ IH]; simpl; [done|]. by rewrite Hc.
Qed.

Lemma lstrip_keeps c s : is_space c = false -> lstrip (c :: s) = c :: s.
Proof. intros H. simpl. by rewrite H. Qed.

(** Stripping removes white space on both sides of a text that neither
    starts nor ends with white space. *)
Lemma py_strip_surrounded ws1 ws2 first middle last :
  Forall (fun c => is_space c = true) ws1 ->
  Forall (fun c => is_space c = true) ws2 ->
  is_space first = false -> is_space last = false ->
  py_strip (ws1 ++ (first :: middle ++ [last]) ++ ws2)
  = first :: middle ++ [last].
Proof.
  intros H1 H2 Hf Hl. unfold py_strip, rstrip.
  rewrite lstrip_spaces by done.
  change ((first :: middle ++ [last]) ++ ws2)
    with (first :: (middle ++ [last]) ++ ws2).
  rewrite lstrip_keeps by done.
  replace (rev (first :: (middle ++ [last]) ++ ws2))
    with (rev ws2 ++ last :: rev (first :: middle)).
  2:{ change (first :: (middle ++ [last]) ++ ws2)
        with ((first :: middle ++ [last]) ++ ws2).
      rewrite rev_app_distr.
      change (first :: middle ++ [last]) with ((first :: middle) ++ [last]).
      by rewrite (rev_app_distr (first :: middle)). }
  rewrite lstrip_spaces.
  2:{ apply Forall_forall. intros x Hx. rewrite Forall_forall in H2.
      apply H2, in_rev, Hx. }
  rewrite lstrip_keeps by done.
  change (last :: rev (first :: middle)) with ([last] ++ rev (first :: middle)).
  rewrite rev_app_distr, rev_involutive. reflexivity.
Qed.

End StringFacts.

(** ** The selection-intent parser *)

Section ParserFacts.

Variable unicode_lower : pystr -> N -> pystr -> pystr.

(** The free-text map, by cases on the key. *)
Lemma language_map_lookup (t : pystr) :
  language_map !! t =
    if decide (u "english" = t) then Some (u "en")
    else if decide (u "tamil" = t) then Some (u "ta")
    else if decide (u "malayalam" = t) then Some (u "ml")
    else if decide (u "en" = t) then Some (u "en")
    else if decide (u "ta" = t) then Some (u "ta")
    else if decide (u "ml" = t) then Some (u "ml")
    else None.
Proof.
  unfold language_map.
  repeat (rewrite list_to_map_cons, lookup_insert; case_decide; [done|]).
  done.
Qed.

Lemma language_map_malayalam : language_map !! u "malayalam" = Some (u "ml").
Proof. by vm_compute. Qed.

Lemma selection_by_text message_text payload :
  no_payload_selection payload ->
  is_language_selection_response unicode_lower message_text payload
  = language_map !! py_strip (py_lower unicode_lower message_text).
Proof.
  unfold is_language_selection_response. destruct payload as [p|]; [|done].
  intros [-> ->]. by destruct (truthy p).
Qed.

(** Lower-casing and stripping a word of letters [a]..[z] written in any
    case between white space gives the word. *)
Lemma normalise_word ws1 ws2 first middle last v :
  (forall b c a, 128 <= c -> is_space c = true -> spaces (unicode_lower b c a)) ->
  spaces ws1 -> spaces ws2 ->
  Forall (fun k => 97 <= k <= 122) (first :: middle ++ [last]) ->
  Forall2 letter_of (first :: middle ++ [last]) v ->
  py_strip (py_lower unicode_lower (ws1 ++ v ++ ws2)) = first :: middle ++ [last].
Proof.
  intros Hul H1 H2 Hw Hv. unfold py_lower.
  destruct (lower_from_spaces unicode_lower [] ws1 (v ++ ws2) Hul H1)
    as (ws1' & H1' & ->).
  rewrite (lower_from_letters unicode_lower _ _ _ _ Hw Hv).
  rewrite <- (app_nil_r ws2).
  destruct (lower_from_spaces unicode_lower (([] ++ ws1) ++ v) ws2 [] Hul H2)
    as (ws2' & H2' & ->).
  simpl lower_from. rewrite app_nil_r.
  pose proof letter_not_space as Hns.
  rewrite app_assoc.
  rewrite <- (app_assoc ws1'). 
  apply py_strip_surrounded; try done.
  - apply Hns. by inversion Hw.
  - apply Hns. inversion Hw as [|? ? _ Hw']; subst.
    apply Forall_app in Hw' as [_ Hl]. by inversion Hl.
Qed.


(** C4: on the payload [LANG_LANG_ta], which begins with the prefix [LANG_],
    the parser returns [ta]: it removes every occurrence of the prefix, so
    the result is not the remainder [LANG_ta] left by stripping the leading
    prefix only. *)
Theorem payload_prefix_removed_everywhere (message_text : pystr) :
  let payload := u "LANG_LANG_ta" in
  startswith payload (u "LANG_") = true /\
  drop 5 payload = u "LANG_ta" /\
  is_language_selection_response unicode_lower message_text (Some payload)
  = Some (u "ta") /\
  is_language_selection_response unicode_lower message_text (Some payload)
  <> Some (drop 5 payload).
Proof. by vm_compute. Qed.

End ParserFacts.


(** ** The gateways *)

Lemma lookup_new_event (l evs : list Event) (n : nat) (ev : Event) :
  (length l <= n)%nat -> (l ++ evs) !! n = Some ev ->
  evs !! (n - length l)%nat = Some ev.
Proof. intros Hn H. by rewrite lookup_app_r in H. Qed.

Lemma extend_nil w : extend w [] = w.
Proof. destruct w. unfold extend. simpl. by rewrite app_nil_r. Qed.

Lemma extend_extend w evs1 evs2 :
  extend (extend w evs1) evs2 = extend w (evs1 ++ evs2).
Proof. unfold extend. simpl. by rewrite app_assoc. Qed.


Lemma record_extend ev w : record ev w = extend w [ev].
Proof. reflexivity. Qed.

Section GatewayFacts.

Variable env : Env.

(** C6: [get_supported_languages] always returns, and returns a non-empty
    list; when the read of the collection made by the call fails or yields
    no documents, the list is English(en), Tamil(ta), Malayalam(ml). *)
Theorem get_supported_languages_never_fails (w : World) :
  exists languages w',
    get_supported_languages env w = (Returns languages, w') /\
    languages <> [] /\
    forall n,
      (length (trace w) <= n)%nat ->
      trace w' !! n = Some (Req_firestore_stream (u "ss_language_support")) ->
      ss_language_support env n = Returns []
      \/ (exists e, ss_language_support env n = Raises e) ->
      languages =
        [ {| code := u "en"; name := u "English" |};
          {| code := u "ta"; name := u "Tamil" |};
          {| code := u "ml"; name := u "Malayalam" |} ].
Proof.
  unfold get_supported_languages. run_monad. unfold record. simpl.
  rewrite length_app, Nat.add_1_r.
  destruct (ss_language_support env (S (length (trace w)))) as [docs|e] eqn:E.
  - destruct docs as [|d docs]; simpl.
    + do 2 eexists. split; [reflexivity|]. split; [done|]. done.
    + do 2 eexists. split; [reflexivity|]. split; [done|].
      simpl. intros n Hn Hev Hans. rewrite <- app_assoc in Hev.
      apply lookup_new_event in Hev; [|done].
      destruct (n - length (trace w))%nat as [|[|k]] eqn:Ek; simplify_eq/=.
      replace n with (S (length (trace w))) in Hans by lia.
      rewrite E in Hans. destruct Hans as [?|[? ?]]; done.
  - do 2 eexists. split; [reflexivity|]. split; [done|]. done.
Qed.

Lemma get_supported_languages_run (w : World) :
  exists languages,
    get_supported_languages env w
    = (Returns languages,
       extend w [Call_get_supported_languages;
                 Req_firestore_stream (u "ss_language_support")]) /\
    languages <> [].
Proof.
  unfold get_supported_languages. run_monad.
  destruct (ss_language_support env _) as [[|d docs]|e]; simpl;
    eexists; (split; [same_run | done]).
Qed.

Lemma is_language_supported_run (language_code : pystr) (w : World) :
  exists supported : bool,
    is_language_supported env language_code w
    = (Returns supported,
       extend w [Call_is_language_supported language_code;
                 Call_get_supported_languages;
                 Req_firestore_stream (u "ss_language_support")]).
Proof.
  unfold is_language_supported. unfold bind at 1 2. unfold called.
  destruct (get_supported_languages_run (record (Call_is_language_supported language_code) w))
    as (languages & -> & _).
  unfold ret. eexists. same_run.
Qed.

(** [get_user_language] returns the stored preference when the read
    succeeds and [None] when it fails. *)
Lemma get_user_language_run (platform user_id : pystr) (w : World) :
  get_user_language env platform user_id w
  = (Returns (match firestore_get_fault env (S (length (trace w))) with
              | Some _ => None
              | None => stored_preference w platform user_id
              end),
     extend w [Call_get_user_language platform user_id;
               Req_firestore_get (user_details platform) user_id]).
Proof.
  unfold get_user_language, firestore_get, stored_preference. run_monad.
  unfold record at 2 4. simpl. rewrite length_app, Nat.add_1_r.
  destruct (firestore_get_fault env _); simpl.
  - same_run.
  - destruct (users w !! _); simpl; same_run.
Qed.

(** [set_user_language] returns [True] and merges the field into the user's
    document when the write succeeds; it returns [False] and leaves the
    documents as they are when the write fails. *)
Lemma set_user_language_run (platform user_id language_code : pystr) (w : World) :
  let evs :=
    [Call_set_user_language platform user_id language_code;
     Req_firestore_set_merge (user_details platform) user_id
       {[ u "preferred_language" := language_code ]}] in
  set_user_language env platform user_id language_code w
  = match firestore_set_fault env (S (length (trace w))) with
    | Some _ => (Returns false, extend w evs)
    | None =>
      (Returns true,
       extend
         {| users :=
              <[(user_details platform, user_id) :=
                  {[ u "preferred_language" := language_code ]}
                  ∪ default ∅ (users w !! (user_details platform, user_id))]>
                (users w);
            trace := trace w |} evs)
    end.
Proof.
  unfold set_user_language, firestore_set_merge. run_monad.
  unfold record at 1. simpl. rewrite length_app, Nat.add_1_r.
  destruct (firestore_set_fault env _); simpl; same_run.
Qed.

Lemma detect_language_run (text : pystr) (w : World) :
  exists detected evs,
    detect_language env text w
    = (Returns detected, extend w (Call_detect_language text :: evs)) /\
    (evs = [] \/ evs = [Req_detect text]).
Proof.
  unfold detect_language. run_monad.
  destruct (translate_client env); simpl.
  - destruct (google_detect env _ text); simpl;
      do 2 eexists; (split; [same_run | by right]).
  - do 2 eexists. split; [same_run | by left].
Qed.

(** [translate_text] always returns; after its own entry it adds no gateway
    call; it returns [text] when there is no client and when the translate
    request it makes raises. *)
Lemma translate_text_run
    (text target_language : pystr) (source_language : option pystr) (w : World) :
  exists translated evs,
    translate_text env text target_language source_language w
    = (Returns translated,
       extend w (Call_translate_text text target_language source_language :: evs)) /\
    Forall (fun ev => is_gateway_call ev = false) evs /\
    (translate_client env = false -> translated = text) /\
    (forall k e,
       evs !! k = Some (Req_translate text target_language source_language) ->
       google_translate env (S (length (trace w) + k))
         text target_language source_language = Raises e ->
       translated = text).
Proof.
  unfold translate_text. unfold bind at 1. unfold called.
  destruct (translate_client env) eqn:Hc; simpl.
  2:{ unfold ret. exists text, []. split; [same_run|]. by repeat split. }
  unfold bind at 1.
  destruct (str_eqb target_language (u "en") && negb (truthy_opt source_language)).
  - unfold bind at 1.
    destruct (detect_language_run text
                (record (Call_translate_text text target_language source_language) w))
      as (detected & devs & -> & Hdevs).
    unfold ret at 1.
    destruct (str_eqb detected (u "en")).
    + unfold ret. exists text. eexists. split; [same_run|].
      split; [|by split].
      destruct Hdevs as [->| ->]; by repeat constructor.
    + run_monad. rewrite !length_app. simpl.
      destruct Hdevs as [->| ->]; simpl.
      * destruct (google_translate env _ _ _ _) as [r|e0] eqn:E; simpl.
        -- exists r. eexists. split; [same_run|]. split; [by repeat constructor|].
           split; [done|]. intros [|[|k]] e Hk Hr; simplify_eq/=.
           replace (length (trace w) + 1 + 1)%nat
             with (S (length (trace w) + 1)) in E by lia. congruence.
        -- exists text. eexists. split; [same_run|].
           split; [by repeat constructor|]. by split.
      * destruct (google_translate env _ _ _ _) as [r|e0] eqn:E; simpl.
        -- exists r. eexists. split; [same_run|]. split; [by repeat constructor|].
           split; [done|]. intros [|[|[|k]]] e Hk Hr; simplify_eq/=.
           replace (length (trace w) + 1 + 2)%nat
             with (S (length (trace w) + 2)) in E by lia. congruence.
        -- exists text. eexists. split; [same_run|].
           split; [by repeat constructor|]. by split.
  - run_monad. rewrite !length_app. simpl.
    destruct (google_translate env _ _ _ _) as [r|e0] eqn:E; simpl.
    + exists r. eexists. split; [same_run|]. split; [by repeat constructor|].
      split; [done|]. intros [|k] e Hk Hr; simplify_eq/=.
      replace (length (trace w) + 1)%nat
        with (S (length (trace w) + 0)) in E by lia. congruence.
    + exists text. eexists. split; [same_run|].
      split; [by repeat constructor|]. by split.
Qed.

(** C7: [translate_text] never raises; it returns the input text when the
    translation client was not initialised, and when the translate request
    it makes raises. *)
Theorem translate_text_never_raises
    (text target_language : pystr) (source_language : option pystr) (w : World) :
  exists translated w',
    translate_text env text target_language source_language w
    = (Returns translated, w') /\
    (translate_client env = false -> translated = text) /\
    (forall n e,
       (length (trace w) <= n)%nat ->
       trace w' !! n = Some (Req_translate text target_language source_language) ->
       google_translate env n text target_language source_language = Raises e ->
       translated = text).
Proof.
  destruct (translate_text_run text target_language source_language w)
    as (translated & evs & Hrun & _ & Hclient & Hreq).
  exists translated. eexists. split; [exact Hrun|]. split; [done|].
  intros n e Hn Hev Hraise. simpl in Hev.
  apply lookup_new_event in Hev; [|done].
  destruct (n - length (trace w))%nat as [|k] eqn:Ek; simplify_eq/=.
  apply (Hreq k e Hev).
  by replace (S (length (trace w) + k)) with n by lia.
Qed.

(** How [invoke_bedrock_agent] ends depends on the position of the call in
    the trace only, not on the stored documents; after its own entry it adds
    no gateway call and no translation event. *)
Lemma invoke_bedrock_agent_run
    (user_message session_id : pystr) (user_id : option pystr) (w : World) :
  exists o evs,
    (forall w2, length (trace w2) = length (trace w) ->
       invoke_bedrock_agent env user_message session_id user_id w2
       = (o, extend w2
               (Call_invoke_bedrock_agent user_message session_id user_id :: evs))) /\
    Forall (fun ev => is_gateway_call ev = false) evs /\
    Forall (fun ev => is_translation_event ev = false) evs.
Proof.
  unfold invoke_bedrock_agent, get_bedrock_client. run_monad.
  unfold record. simpl.
  assert (forall w2, length (trace w2) = length (trace w) ->
    length (trace w2 ++ [Call_invoke_bedrock_agent user_message session_id user_id])
    = S (length (trace w))) as Hpos.
  { intros w2 Hw2. rewrite length_app. simpl. lia. }
  destruct (get_config env (u "AWS_BEDROCK_AGENT_ID")) as [agent_id|];
    [destruct (get_config env (u "AWS_BEDROCK_AGENT_ALIAS_ID")) as [alias|];
     [destruct (truthy agent_id && truthy alias);
      [destruct (get_config env (u "AWS_ACCESS_KEY")) as [access|];
       [destruct (get_config env (u "AWS_SECRET_KEY")) as [secret|];
        [destruct (truthy access && truthy secret);
         [destruct (boto3_client_fault env _ access secret);
          [|destruct (bedrock_invoke_agent env (S (length (trace w)))
                        agent_id alias session_id user_message) eqn:E]|]|]|]|]|]|];
    simpl;
    do 2 eexists;
    (split; [intros w2 Hw2; simpl; rewrite ?(Hpos w2 Hw2), ?E; same_run |]);
    split; by repeat constructor.
Qed.

End GatewayFacts.

(** ** The workflow *)

Section WorkflowFacts.

Variable unicode_lower : pystr -> N -> pystr -> pystr.
Variable env : Env.

(** With no language seen for the user, the call continues as case 1. *)
Lemma process_awaiting platform user_id message_text payload o w w0 :
  get_user_language env platform user_id w = (Returns o, w0) ->
  truthy_opt o = false ->
  process_message_with_translation unicode_lower env
    platform user_id message_text payload w
  = language_selection unicode_lower env platform user_id message_text payload w0.
Proof.
  intros Hget Ho. unfold process_message_with_translation, bind.
  rewrite Hget. destruct o as [lang|]; [|done].
  simpl in Ho. by rewrite Ho.
Qed.

(** With a language seen for the user, the call continues as case 2. *)
Lemma process_active platform user_id message_text payload lang w w0 :
  get_user_language env platform user_id w = (Returns (Some lang), w0) ->
  truthy lang = true ->
  process_message_with_translation unicode_lower env
    platform user_id message_text payload w
  = translation_pipeline env user_id message_text lang w0.
Proof.
  intros Hget Hl. unfold process_message_with_translation, bind.
  by rewrite Hget, Hl.
Qed.

Lemma show_prompt_run (w : World) :
  exists languages,
    get_supported_languages env w
    = (Returns languages,
       extend w [Call_get_supported_languages;
                 Req_firestore_stream (u "ss_language_support")]) /\
    show_prompt env w
    = (Returns
         {| response := prompt_text;
            quick_replies :=
              Some (map (fun lang => {| title := name lang;
                                        payload := u "LANG_" ++ code lang |})
                        languages);
            buttons :=
              Some (map (fun lang => {| id := u "lang_" ++ code lang;
                                        button_title := name lang |})
                        (take 3 languages)) |},
       extend w [Call_get_supported_languages;
                 Req_firestore_stream (u "ss_language_support")]).
Proof.
  destruct (get_supported_languages_run env w) as (languages & Hrun & _).
  exists languages. split; [done|].
  unfold show_prompt, create_language_selection_prompt, bind.
  rewrite Hrun. reflexivity.
Qed.

(** The prompt branch of case 1. *)
Lemma awaiting_prompt platform user_id message_text payload o w w0 w1 :
  get_user_language env platform user_id w = (Returns o, w0) ->
  truthy_opt o = false ->
  (truthy_opt (is_language_selection_response unicode_lower message_text payload)
   = false /\ w1 = w0)
  \/ (exists selected,
        is_language_selection_response unicode_lower message_text payload
        = Some selected /\
        truthy selected = true /\
        is_language_supported env selected w0 = (Returns false, w1)) ->
  exists languages w',
    get_supported_languages env w1 = (Returns languages, w') /\
    process_message_with_translation unicode_lower env
      platform user_id message_text payload w
    = (Returns
         {| response :=
              prompt_text;
            quick_replies :=
              Some (map (fun lang => {| title := name lang;
                                        payload := u "LANG_" ++ code lang |})
                        languages);
            buttons :=
              Some (map (fun lang => {| id := u "lang_" ++ code lang;
                                        button_title := name lang |})
                        (take 3 languages)) |},
       w') /\
    users w' = users w.
Proof.
  intros Hget Ho Hsel.
  rewrite (process_awaiting _ _ _ _ _ _ _ Hget Ho).
  assert (users w0 = users w) as Hu.
  { rewrite get_user_language_run in Hget. by simplify_eq. }
  unfold language_selection.
  destruct Hsel as [[Hnone ->]|(selected & Hsome & Ht & Hsup)].
  - destruct (show_prompt_run w0) as (languages & Hdir & Hprompt).
    exists languages. eexists. split; [exact Hdir|]. split; [|exact Hu].
    destruct (is_language_selection_response _ _ _) as [s|]; [|exact Hprompt].
    simpl in Hnone. rewrite Hnone. exact Hprompt.
  - destruct (show_prompt_run w1) as (languages & Hdir & Hprompt).
    exists languages. eexists. split; [exact Hdir|].
    rewrite Hsome, Ht. unfold bind. rewrite Hsup. split; [exact Hprompt|].
    destruct (is_language_supported_run env selected w0) as (b & Hb).
    rewrite Hb in Hsup. by simplify_eq.
Qed.

Lemma prompt_text_literal :
  prompt_text = u "Welcome! 🌍

What's your preferred language?
உங்கள் விருப்ப மொழி என்ன?
നിങ്ങളുടെ ഇഷ്ടമുള്ള ഭാഷ എന്താണ്?".
Proof. reflexivity. Qed.

(** C5: when no language is seen for the user and the message carries no
    supported selection, the call returns the prompt: the fixed greeting, a
    quick reply [{title: name, payload: "LANG_" + code}] for every entry of
    the directory in order, and a button [{id: "lang_" + code, title: name}]
    for each of its first three entries; the stored documents are not
    written. *)
Theorem prompt_without_selection platform user_id message_text payload o w w0 w1 :
  get_user_language env platform user_id w = (Returns o, w0) ->
  truthy_opt o = false ->
  (truthy_opt (is_language_selection_response unicode_lower message_text payload)
   = false /\ w1 = w0)
  \/ (exists selected,
        is_language_selection_response unicode_lower message_text payload
        = Some selected /\
        truthy selected = true /\
        is_language_supported env selected w0 = (Returns false, w1)) ->
  exists languages w',
    get_supported_languages env w1 = (Returns languages, w') /\
    process_message_with_translation unicode_lower env
      platform user_id message_text payload w
    = (Returns
         {| response :=
              u "Welcome! 🌍

What's your preferred language?
உங்கள் விருப்ப மொழி என்ன?
നിങ്ങളുടെ ഇഷ്ടമുള്ള ഭാഷ എന്താണ്?";
            quick_replies :=
              Some (map (fun lang => {| title := name lang;
                                        payload := u "LANG_" ++ code lang |})
                        languages);
            buttons :=
              Some (map (fun lang => {| id := u "lang_" ++ code lang;
                                        button_title := name lang |})
                        (take 3 languages)) |},
       w') /\
    users w' = users w.
Proof.
  intros Hget Ho Hsel. rewrite <- prompt_text_literal.
  exact (awaiting_prompt _ _ _ _ _ _ _ _ Hget Ho Hsel).
Qed.

(** The confirmation branch of case 1: whatever [set_user_language]
    returns, the confirmation for the selected code is the response. *)
Lemma awaiting_confirmation
    platform user_id message_text payload o selected (saved : bool) w w0 w1 w2 :
  get_user_language env platform user_id w = (Returns o, w0) ->
  truthy_opt o = false ->
  is_language_selection_response unicode_lower message_text payload
  = Some selected ->
  truthy selected = true ->
  is_language_supported env selected w0 = (Returns true, w1) ->
  set_user_language env platform user_id selected w1 = (Returns saved, w2) ->
  process_message_with_translation unicode_lower env
    platform user_id message_text payload w
  = (Returns (text_only (get_or_en confirmations selected)), w2).
Proof.
  intros Hget Ho Hsome Ht Hsup Hset.
  rewrite (process_awaiting _ _ _ _ _ _ _ Hget Ho).
  unfold language_selection. rewrite Hsome, Ht. unfold bind.
  by rewrite Hsup, Hset.
Qed.

Lemma confirmation_literal selected :
  get_or_en confirmations selected
  = match confirmations !! selected with
    | Some confirmation => confirmation
    | None => u "✅ Language set to English! How can I help you today?"
    end.
Proof.
  unfold get_or_en. destruct (confirmations !! selected); [done|].
  by vm_compute.
Qed.

Lemma get_user_language_users platform user_id o w w0 :
  get_user_language env platform user_id w = (Returns o, w0) ->
  users w0 = users w.
Proof. rewrite get_user_language_run. intros. by simplify_eq. Qed.

Lemma is_language_supported_users language_code (b : bool) w w' :
  is_language_supported env language_code w = (Returns b, w') ->
  users w' = users w.
Proof.
  destruct (is_language_supported_run env language_code w) as (b' & ->).
  intros. by simplify_eq.
Qed.

(** A successful [set_user_language] stores the code; a failed one changes
    no document. *)
Lemma set_user_language_users platform user_id language_code (saved : bool) w w' :
  set_user_language env platform user_id language_code w = (Returns saved, w') ->
  if saved
  then users w' =
         <[(user_details platform, user_id) :=
             {[ u "preferred_language" := language_code ]}
             ∪ default ∅ (users w !! (user_details platform, user_id))]>
           (users w)
  else users w' = users w.
Proof.
  rewrite set_user_language_run.
  destruct (firestore_set_fault env _); intros; by simplify_eq.
Qed.

Lemma stored_preference_saved platform user_id language_code w w' :
  users w' =
    <[(user_details platform, user_id) :=
        {[ u "preferred_language" := language_code ]}
        ∪ default ∅ (users w !! (user_details platform, user_id))]>
      (users w) ->
  stored_preference w' platform user_id = Some language_code.
Proof.
  intros Hu. unfold stored_preference. rewrite Hu, lookup_insert_eq. simpl.
  apply lookup_union_Some_l, lookup_singleton_eq.
Qed.

(** C3 (amended): when no language is seen for the user, the parser yields a
    non-empty code, the directory confirms it and [set_user_language]
    reports success, the call stores the code as the user's preference and
    returns the confirmation for the code, or the English confirmation when
    the code has none; for [ta] this is the Tamil confirmation.  A later
    call whose read succeeds sees the preference and runs the translation
    pipeline. *)
Theorem selection_persisted
    platform user_id message_text payload o selected w w0 w1 w2 :
  get_user_language env platform user_id w = (Returns o, w0) ->
  truthy_opt o = false ->
  is_language_selection_response unicode_lower message_text payload
  = Some selected ->
  truthy selected = true ->
  is_language_supported env selected w0 = (Returns true, w1) ->
  set_user_language env platform user_id selected w1 = (Returns true, w2) ->
  process_message_with_translation unicode_lower env
    platform user_id message_text payload w
  = (Returns
       {| response :=
            match confirmations !! selected with
            | Some confirmation => confirmation
            | None => u "✅ Language set to English! How can I help you today?"
            end;
          quick_replies := None;
          buttons := None |},
     w2) /\
  stored_preference w2 platform user_id = Some selected /\
  (selected = u "ta" ->
   confirmations !! selected
   = Some (u "✅ மொழி தமிழ் என அமைக்கப்பட்டது! இன்று நான் உங்களுக்கு எப்படி உதவ முடியும்?")) /\
  (forall message_text' payload',
     firestore_get_fault env (S (length (trace w2))) = None ->
     exists w3,
       get_user_language env platform user_id w2 = (Returns (Some selected), w3) /\
       process_message_with_translation unicode_lower env
         platform user_id message_text' payload' w2
       = translation_pipeline env user_id message_text' selected w3).
Proof.
  intros Hget Ho Hsome Ht Hsup Hset.
  assert (stored_preference w2 platform user_id = Some selected) as Hstored.
  { apply set_user_language_users in Hset.
    by apply (stored_preference_saved _ _ _ w1). }
  split; [|split; [exact Hstored|split]].
  - rewrite (awaiting_confirmation _ _ _ _ _ _ _ _ _ _ _ Hget Ho Hsome Ht Hsup Hset).
    by rewrite confirmation_literal.
  - intros ->. by vm_compute.
  - intros message_text' payload' Hread.
    pose proof (get_user_language_run env platform user_id w2) as Hget2.
    rewrite Hread, Hstored in Hget2.
    eexists. split; [exact Hget2|].
    by apply process_active.
Qed.

(** C10: [set_user_language] reports a failed write by returning [False],
    it does not raise.  When no language is seen for the user, the parser
    yields a non-empty code, the directory confirms it and the write of the
    preference fails, the call still returns the confirmation for the code
    and no document is written; if the user had no stored preference, it
    still has none, and a later call with a message that selects nothing
    returns the prompt again. *)
Theorem confirmation_despite_failed_save
    platform user_id message_text payload o selected e w w0 w1 :
  get_user_language env platform user_id w = (Returns o, w0) ->
  truthy_opt o = false ->
  is_language_selection_response unicode_lower message_text payload
  = Some selected ->
  truthy selected = true ->
  is_language_supported env selected w0 = (Returns true, w1) ->
  firestore_set_fault env (S (length (trace w1))) = Some e ->
  exists w2,
    set_user_language env platform user_id selected w1 = (Returns false, w2) /\
    process_message_with_translation unicode_lower env
      platform user_id message_text payload w
    = (Returns
         {| response :=
              match confirmations !! selected with
              | Some confirmation => confirmation
              | None => u "✅ Language set to English! How can I help you today?"
              end;
            quick_replies := None;
            buttons := None |},
       w2) /\
    users w2 = users w /\
    (stored_preference w platform user_id = None ->
     stored_preference w2 platform user_id = None /\
     forall message_text' payload',
       is_language_selection_response unicode_lower message_text' payload' = None ->
       exists r w3,
         process_message_with_translation unicode_lower env
           platform user_id message_text' payload' w2
         = (Returns r, w3) /\
         response r = prompt_text /\
         is_Some (quick_replies r) /\ is_Some (buttons r) /\
         users w3 = users w).
Proof.
  intros Hget Ho Hsome Ht Hsup Hfault.
  pose proof (set_user_language_run env platform user_id selected w1) as Hset.
  simpl in Hset. rewrite Hfault in Hset.
  eexists. split; [exact Hset|].
  assert (users w1 = users w) as Hu.
  { apply is_language_supported_users in Hsup.
    apply get_user_language_users in Hget. congruence. }
  split; [|split; [exact Hu|]].
  - rewrite (awaiting_confirmation _ _ _ _ _ _ _ _ _ _ _ Hget Ho Hsome Ht Hsup Hset).
    by rewrite confirmation_literal.
  - intros Hnone.
    match goal with
    | |- stored_preference ?x _ _ = None /\ _ => set (w2 := x)
    end.
    assert (stored_preference w2 platform user_id = None) as Hnone2.
    { unfold stored_preference in *. subst w2. simpl. by rewrite Hu. }
    split; [exact Hnone2|].
    intros message_text' payload' Hsel.
    pose proof (get_user_language_run env platform user_id w2) as Hget2.
    rewrite Hnone2 in Hget2.
    destruct (awaiting_prompt platform user_id message_text' payload'
                None w2 _ _
                ltac:(destruct (firestore_get_fault env _); exact Hget2)
                eq_refl
                ltac:(left; split; [by rewrite Hsel | reflexivity]))
      as (languages & w3 & _ & Hrun & Hu3).
    do 2 eexists. split; [exact Hrun|]. simpl.
    split; [done|]. split; [by eexists|]. split; [by eexists|].
    rewrite Hu3. subst w2. simpl. exact Hu.
Qed.

(** *** Case 2: the translation pipeline *)


Lemma no_gateway_no_agent_call evs :
  Forall (fun ev => is_gateway_call ev = false) evs ->
  Forall (fun ev => is_agent_call ev = false) evs.
Proof. apply Forall_impl. by intros []. Qed.

(** The one agent call of a trace segment is found at its position. *)
Lemma agent_call_position pre call post k ev :
  Forall (fun ev => is_agent_call ev = false) pre ->
  Forall (fun ev => is_agent_call ev = false) post ->
  (pre ++ call :: post) !! k = Some ev ->
  is_agent_call ev = true ->
  k = length pre /\ ev = call.
Proof.
  intros Hpre Hpost Hk Hev.
  destruct (decide (k < length pre)%nat) as [Hlt|Hge].
  - rewrite lookup_app_l in Hk by done.
    rewrite Forall_forall in Hpre.
    assert (is_agent_call ev = false); [|congruence].
    apply Hpre, list_elem_of_In. by apply list_elem_of_lookup_2 in Hk.
  - rewrite lookup_app_r in Hk by lia.
    destruct (k - length pre)%nat as [|j] eqn:Ej; simpl in Hk.
    + split; [lia | congruence].
    + rewrite Forall_forall in Hpost.
      assert (is_agent_call ev = false); [|congruence].
      apply Hpost, list_elem_of_In. by apply list_elem_of_lookup_2 in Hk.
Qed.

(** The whole of a pipeline run: the translation to English, the agent
    call, and, when the agent returned, the translation back. *)
Lemma pipeline_run (user_id message_text lang : pystr) (w0 : World) :
  exists english pre o mid,
    translation_step env lang message_text (u "en") (Some lang) w0 english pre /\
    (forall w2, length (trace w2) = length (trace (extend w0 pre)) ->
       invoke_bedrock_agent env english user_id (Some user_id) w2
       = (o, extend w2
               (Call_invoke_bedrock_agent english user_id (Some user_id) :: mid))) /\
    Forall (fun ev => is_gateway_call ev = false) mid /\
    Forall (fun ev => is_translation_event ev = false) mid /\
    let w2 :=
      extend (extend w0 pre)
        (Call_invoke_bedrock_agent english user_id (Some user_id) :: mid) in
    match o with
    | Raises _ =>
      translation_pipeline env user_id message_text lang w0
      = (Returns (text_only (get_or_en error_messages lang)), w2)
    | Returns agent_result =>
      exists translated post,
        translation_step env lang (agent_response agent_result) lang (Some (u "en"))
          w2 translated post /\
        translation_pipeline env user_id message_text lang w0
        = (Returns (text_only translated), extend w2 post)
    end.
Proof.
  unfold translation_pipeline, translation_step.
  destruct (str_eqb lang (u "en")) eqn:Hen; simpl negb; cbv iota.
  - exists message_text, [].
    destruct (invoke_bedrock_agent_run env message_text user_id (Some user_id)
                (extend w0 [])) as (o & mid & Hinv & Hgw & Htr).
    exists o, mid. split; [done|]. split; [exact Hinv|]. split; [done|].
    split; [done|].
    rewrite extend_nil in *. unfold try_except, bind, ret.
    rewrite (Hinv w0 eq_refl).
    destruct o as [a|e]; [|reflexivity].
    exists (agent_response a), []. split; [done|]. by rewrite extend_nil.
  - destruct (translate_text_run env message_text (u "en") (Some lang) w0)
      as (english & rest & Hrun1 & Hgw1 & _).
    exists english. eexists.
    destruct (invoke_bedrock_agent_run env english user_id (Some user_id)
                (extend w0 (Call_translate_text message_text (u "en") (Some lang)
                              :: rest))) as (o & mid & Hinv & Hgw & Htr).
    exists o, mid. split; [by eexists|]. split; [exact Hinv|]. split; [done|].
    split; [done|].
    unfold try_except, bind, ret. rewrite Hrun1, (Hinv _ eq_refl).
    destruct o as [a|e]; [|reflexivity].
    destruct (translate_text_run env (agent_response a) lang (Some (u "en"))
                (extend (extend w0 (Call_translate_text message_text (u "en")
                                      (Some lang) :: rest))
                   (Call_invoke_bedrock_agent english user_id (Some user_id) :: mid)))
      as (translated & rest3 & Hrun3 & Hgw3 & _).
    rewrite Hrun3. exists translated. eexists. split; [by eexists|].
    reflexivity.
Qed.

Lemma get_user_language_world platform user_id o w w0 :
  get_user_language env platform user_id w = (Returns o, w0) ->
  w0 = extend w [Call_get_user_language platform user_id;
                 Req_firestore_get (user_details platform) user_id].
Proof. rewrite get_user_language_run. intros. by simplify_eq. Qed.

Lemma str_eqb_true (s t : pystr) : str_eqb s t = true <-> s = t.
Proof. unfold str_eqb. apply bool_decide_eq_true. Qed.



(** *** Every run returns *)

(** Case 1 always returns; it changes the documents only by saving a
    non-empty code that the parser yielded and the directory confirmed. *)
Lemma language_selection_run platform user_id message_text payload w0 :
  exists r w',
    language_selection unicode_lower env platform user_id message_text payload w0
    = (Returns r, w') /\
    (users w' = users w0
     \/ exists selected w1,
          is_language_selection_response unicode_lower message_text payload
          = Some selected /\
          truthy selected = true /\
          is_language_supported env selected w0 = (Returns true, w1) /\
          users w' =
            <[(user_details platform, user_id) :=
                {[ u "preferred_language" := selected ]}
                ∪ default ∅ (users w0 !! (user_details platform, user_id))]>
              (users w0)).
Proof.
  unfold language_selection.
  destruct (is_language_selection_response _ _ _) as [selected|] eqn:Hsel.
  2:{ destruct (show_prompt_run w0) as (languages & _ & ->).
      do 2 eexists. split; [reflexivity|]. by left. }
  destruct (truthy selected) eqn:Ht.
  2:{ destruct (show_prompt_run w0) as (languages & _ & ->).
      do 2 eexists. split; [reflexivity|]. by left. }
  unfold bind.
  destruct (is_language_supported_run env selected w0) as ([|] & Hsup);
    rewrite Hsup.
  - destruct (set_user_language env platform user_id selected _)
      as [[saved|e] w2] eqn:Hset.
    2:{ rewrite set_user_language_run in Hset.
        destruct (firestore_set_fault env _); discriminate. }
    pose proof (set_user_language_users _ _ _ _ _ _ Hset) as Hu.
    do 2 eexists. split; [reflexivity|]. destruct saved.
    + right. exists selected. eexists. by repeat split.
    + by left.
  - destruct (show_prompt_run
                (extend w0 [Call_is_language_supported selected;
                            Call_get_supported_languages;
                            Req_firestore_stream (u "ss_language_support")]))
      as (languages & _ & ->).
    do 2 eexists. split; [reflexivity|]. by left.
Qed.

(** Case 2 always returns and writes no document. *)
Lemma translation_pipeline_returns user_id message_text lang w0 :
  exists r evs,
    translation_pipeline env user_id message_text lang w0
    = (Returns r, extend w0 evs).
Proof.
  destruct (pipeline_run user_id message_text lang w0)
    as (english & pre & o & mid & _ & _ & _ & _ & Hrun).
  destruct o as [a|e].
  - destruct Hrun as (translated & post & _ & ->).
    do 2 eexists. by rewrite !extend_extend.
  - rewrite Hrun. do 2 eexists. by rewrite !extend_extend.
Qed.

Lemma error_literal lang :
  get_or_en error_messages lang
  = match error_messages !! lang with
    | Some message => message
    | None => u "❌ Sorry, I encountered an error. Please try again."
    end.
Proof.
  unfold get_or_en. destruct (error_messages !! lang); [done|].
  by vm_compute.
Qed.

Lemma translation_step_no_agent_call
    lang text target source w translated evs :
  translation_step env lang text target source w translated evs ->
  Forall (fun ev => is_agent_call ev = false) evs.
Proof.
  unfold translation_step. destruct (str_eqb lang (u "en")).
  - by intros [_ ->].
  - intros (rest & -> & Hrest & _). constructor; [done|].
    by apply no_gateway_no_agent_call.
Qed.

(** C1 (amended): the call always returns a descriptor, it never raises.  For
    a user whose language is seen, when the agent invocation made by the call
    raises, the response is the error text for that language, or the English
    error text when the language has none; for [ta] it is the Tamil error
    text.  (A failing translation request does not reach the handler:
    [translate_text] catches it and returns its input.) *)
Theorem failures_never_escape platform user_id message_text payload w :
  exists r w',
    process_message_with_translation unicode_lower env
      platform user_id message_text payload w = (Returns r, w') /\
    forall lang w0,
      get_user_language env platform user_id w = (Returns (Some lang), w0) ->
      truthy lang = true ->
      forall english w1 e w2,
        (length (trace w0) <= length (trace w1))%nat ->
        trace w' !! length (trace w1)
        = Some (Call_invoke_bedrock_agent english user_id (Some user_id)) ->
        invoke_bedrock_agent env english user_id (Some user_id) w1
        = (Raises e, w2) ->
        r = {| response :=
                 match error_messages !! lang with
                 | Some message => message
                 | None => u "❌ Sorry, I encountered an error. Please try again."
                 end;
               quick_replies := None;
               buttons := None |} /\
        (lang = u "ta" ->
         response r
         = u "❌ மன்னிக்கவும், ஒரு பிழை ஏற்பட்டது. மீண்டும் முயற்சிக்கவும்.").
Proof.
  pose proof (get_user_language_run env platform user_id w) as Hget.
  set (o := match firestore_get_fault env _ with
            | Some _ => None
            | None => stored_preference w platform user_id
            end) in Hget.
  destruct (truthy_opt o) eqn:Ho.
  - destruct o as [lang0|]; [|done]. simpl in Ho.
    rewrite (process_active _ _ _ _ _ _ _ Hget Ho).
    destruct (pipeline_run user_id message_text lang0
                (extend w [Call_get_user_language platform user_id;
                           Req_firestore_get (user_details platform) user_id]))
      as (english0 & pre & o & mid & Hstep1 & Hinv & Hgw & _ & Hrun).
    pose proof (translation_step_no_agent_call _ _ _ _ _ _ _ Hstep1) as Hpre.
    apply no_gateway_no_agent_call in Hgw.
    assert (exists r post,
      Forall (fun ev => is_agent_call ev = false) post /\
      translation_pipeline env user_id message_text lang0
        (extend w [Call_get_user_language platform user_id;
                   Req_firestore_get (user_details platform) user_id])
      = (Returns r,
         extend
           (extend w [Call_get_user_language platform user_id;
                      Req_firestore_get (user_details platform) user_id])
           (pre ++ Call_invoke_bedrock_agent english0 user_id (Some user_id)
                :: mid ++ post)) /\
      (forall e, o = Raises e ->
         r = text_only (get_or_en error_messages lang0)))
      as (r & post & Hpost & Hpipe & Herr).
    { destruct o as [a|e0].
      - destruct Hrun as (translated & post & Hstep3 & ->).
        exists (text_only translated), post.
        split; [by eapply translation_step_no_agent_call|].
        split; [by rewrite !extend_extend|]. done.
      - rewrite Hrun. exists (text_only (get_or_en error_messages lang0)), [].
        split; [done|]. split; [by rewrite !extend_extend, app_nil_r|]. done. }
    rewrite Hpipe. do 2 eexists. split; [reflexivity|].
    intros lang w0 Hget' Hlang english w1 e w2 Hlen Hcall Hraise.
    rewrite Hget in Hget'. injection Hget' as -> <-.
    simpl in Hcall. rewrite <- app_assoc in Hcall.
    simpl in Hlen. rewrite length_app in Hlen. simpl in Hlen.
    apply lookup_new_event in Hcall; [|lia].
    rewrite app_assoc in Hcall.
    apply agent_call_position in Hcall as [Hpos Hev]; try done.
    2:{ apply Forall_app. split; [by repeat constructor | done]. }
    2:{ by apply Forall_app. }
    injection Hev as ->.
    rewrite (Hinv w1) in Hraise.
    2:{ simpl. rewrite !length_app in *. simpl in *. lia. }
    injection Hraise as Ho' _.
    rewrite (Herr e Ho'), error_literal. split; [done|].
    intros ->. by vm_compute.
  - rewrite (process_awaiting _ _ _ _ _ _ _ Hget Ho).
    destruct (language_selection_run platform user_id message_text payload
                (extend w [Call_get_user_language platform user_id;
                           Req_firestore_get (user_details platform) user_id]))
      as (r & w' & -> & _).
    do 2 eexists. split; [reflexivity|].
    intros lang w0 Hget' Hlang. rewrite Hget in Hget'.
    injection Hget' as Ho' _. rewrite Ho' in Ho. simpl in Ho. congruence.
Qed.


End WorkflowFacts.

(** ** Concrete runs *)

Lemma prompt_without_selection_witness :
  exists r w',
    process_message_with_translation caseless quiet_env
      (u "facebook") (u "1001") (u "hello") None fresh_world = (Returns r, w') /\
    quick_replies r
    = Some [ {| title := u "English"; payload := u "LANG_en" |};
             {| title := u "Tamil"; payload := u "LANG_ta" |};
             {| title := u "Malayalam"; payload := u "LANG_ml" |} ] /\
    users w' = users fresh_world.
Proof.
  destruct (prompt_without_selection caseless quiet_env
              (u "facebook") (u "1001") (u "hello") None None fresh_world
              (snd (get_user_language quiet_env (u "facebook") (u "1001") fresh_world))
              (snd (get_user_language quiet_env (u "facebook") (u "1001") fresh_world)))
    as (languages & w' & Hdir & Hrun & Hu).
  - by vm_compute.
  - reflexivity.
  - left. split; [by vm_compute | reflexivity].
  - do 2 eexists. split; [exact Hrun|]. split; [|exact Hu].
    simpl. f_equal. vm_compute in Hdir. injection Hdir as <- _. by vm_compute.
Defined.

Lemma selection_persisted_witness :
  exists w2,
    process_message_with_translation caseless quiet_env
      (u "facebook") (u "1001") (u "hi") (Some (u "LANG_ta")) fresh_world
    = (Returns
         (text_only
            (u "✅ மொழி தமிழ் என அமைக்கப்பட்டது! இன்று நான் உங்களுக்கு எப்படி உதவ முடியும்?")),
       w2) /\
    stored_preference w2 (u "facebook") (u "1001") = Some (u "ta") /\
    exists w3,
      get_user_language quiet_env (u "facebook") (u "1001") w2
      = (Returns (Some (u "ta")), w3).
Proof.
  set (w0 := snd (get_user_language quiet_env (u "facebook") (u "1001") fresh_world)).
  set (w1 := snd (is_language_supported quiet_env (u "ta") w0)).
  set (w2 := snd (set_user_language quiet_env (u "facebook") (u "1001") (u "ta") w1)).
  destruct (selection_persisted caseless quiet_env
              (u "facebook") (u "1001") (u "hi") (Some (u "LANG_ta"))
              None (u "ta") fresh_world w0 w1 w2)
    as (Hrun & Hstored & Hta & Hnext); try (vm_compute; reflexivity).
  exists w2. split; [|split; [exact Hstored|]].
  - rewrite Hrun, (Hta eq_refl). reflexivity.
  - destruct (Hnext (u "hello") None eq_refl) as (w3 & Hget & _). by exists w3.
Defined.

Lemma selection_not_persisted_counterexample :
  stored_preference fresh_world (u "facebook") (u "1001") = None /\
  is_language_selection_response caseless (u "hi") (Some (u "LANG_ta"))
  = Some (u "ta") /\
  (exists w0 w1,
     get_user_language write_fails_env (u "facebook") (u "1001") fresh_world
     = (Returns None, w0) /\
     is_language_supported write_fails_env (u "ta") w0 = (Returns true, w1)) /\
  exists r w',
    process_message_with_translation caseless write_fails_env
      (u "facebook") (u "1001") (u "hi") (Some (u "LANG_ta")) fresh_world
    = (Returns r, w') /\
    stored_preference w' (u "facebook") (u "1001") <> Some (u "ta") /\
    exists w3,
      get_user_language write_fails_env (u "facebook") (u "1001") w'
      = (Returns None, w3).
Proof.
  split; [by vm_compute|]. split; [by vm_compute|]. split.
  - do 2 eexists. split; vm_compute; reflexivity.
  - do 2 eexists. split; [vm_compute; reflexivity|]. split.
    + vm_compute. discriminate.
    + eexists. vm_compute. reflexivity.
Qed.

Lemma confirmation_despite_failed_save_witness :
  exists w2,
    process_message_with_translation caseless write_fails_env
      (u "facebook") (u "1001") (u "hi") (Some (u "LANG_ta")) fresh_world
    = (Returns
         (text_only
            (u "✅ மொழி தமிழ் என அமைக்கப்பட்டது! இன்று நான் உங்களுக்கு எப்படி உதவ முடியும்?")),
       w2) /\
    stored_preference w2 (u "facebook") (u "1001") = None /\
    exists r w3,
      process_message_with_translation caseless write_fails_env
        (u "facebook") (u "1001") (u "hello") None w2
      = (Returns r, w3) /\
      response r = prompt_text /\ is_Some (quick_replies r).
Proof.
  set (w0 := snd (get_user_language write_fails_env (u "facebook") (u "1001")
                    fresh_world)).
  set (w1 := snd (is_language_supported write_fails_env (u "ta") w0)).
  destruct (confirmation_despite_failed_save caseless write_fails_env
              (u "facebook") (u "1001") (u "hi") (Some (u "LANG_ta"))
              None (u "ta") (Error (u "unavailable")) fresh_world w0 w1)
    as (w2 & Hset & Hrun & Hu & Hnext); try (vm_compute; reflexivity).
  destruct (Hnext ltac:(vm_compute; reflexivity)) as (Hnone & Hprompt).
  destruct (Hprompt (u "hello") None) as (r & w3 & Hrun3 & Hr & Hq & _);
    [vm_compute; reflexivity|].
  exists w2. split; [|split; [exact Hnone|]].
  - rewrite Hrun. do 3 f_equal; vm_compute; reflexivity.
  - exists r, w3. split; [exact Hrun3|]. split; [exact Hr | exact Hq].
Defined.


Lemma failures_never_escape_witness :
  exists w',
    process_message_with_translation caseless quiet_env
      (u "facebook") (u "1001") (u "வணக்கம்") None (user_world (u "ta"))
    = (Returns
         (text_only (u "❌ மன்னிக்கவும், ஒரு பிழை ஏற்பட்டது. மீண்டும் முயற்சிக்கவும்.")),
       w').
Proof.
  destruct (failures_never_escape caseless quiet_env
              (u "facebook") (u "1001") (u "வணக்கம்") None (user_world (u "ta")))
    as (r & w' & Hrun & Herr).
  set (w0 := snd (get_user_language quiet_env (u "facebook") (u "1001")
                    (user_world (u "ta")))).
  set (w1 := snd (translate_text quiet_env (u "வணக்கம்") (u "en")
                    (Some (u "ta")) w0)).
  set (w2 := snd (invoke_bedrock_agent quiet_env (u "வணக்கம்") (u "1001")
                    (Some (u "1001")) w1)).
  assert (w' = snd (process_message_with_translation caseless quiet_env
                      (u "facebook") (u "1001") (u "வணக்கம்") None
                      (user_world (u "ta")))) as Hw by (by rewrite Hrun).
  destruct (Herr (u "ta") w0 ltac:(vm_compute; reflexivity)
              ltac:(vm_compute; reflexivity)
              (u "வணக்கம்") w1
              (ValueError (u "AWS Bedrock Agent ID or Alias ID not configured."))
              w2) as [Hr Hta].
  - vm_compute. lia.
  - rewrite Hw. vm_compute. reflexivity.
  - vm_compute. reflexivity.
  - exists w'. rewrite Hrun. do 2 f_equal.
    destruct r as [text replies btns]. simpl in Hta.
    injection Hr as _ -> ->. by rewrite (Hta eq_refl).
Defined.


Lemma get_supported_languages_never_fails_witness :
  exists w',
    get_supported_languages quiet_env fresh_world
    = (Returns [ {| code := u "en"; name := u "English" |};
                 {| code := u "ta"; name := u "Tamil" |};
                 {| code := u "ml"; name := u "Malayalam" |} ],
       w').
Proof.
  destruct (get_supported_languages_never_fails quiet_env fresh_world)
    as (languages & w' & Hrun & _ & Hfallback).
  assert (w' = snd (get_supported_languages quiet_env fresh_world)) as Hw
    by (by rewrite Hrun).
  exists w'. rewrite Hrun. do 2 f_equal.
  apply (Hfallback 1%nat).
  - simpl. lia.
  - rewrite Hw. vm_compute. reflexivity.
  - left. reflexivity.
Defined.

Lemma translate_text_never_raises_witness :
  exists w',
    translate_text translate_fails_env (u "வணக்கம்") (u "en") None fresh_world
    = (Returns (u "வணக்கம்"), w').
Proof.
  destruct (translate_text_never_raises translate_fails_env
              (u "வணக்கம்") (u "en") None fresh_world)
    as (translated & w' & Hrun & _ & Hraise).
  assert (w' = snd (translate_text translate_fails_env (u "வணக்கம்") (u "en")
                      None fresh_world)) as Hw by (by rewrite Hrun).
  exists w'. rewrite Hrun. do 2 f_equal.
  apply (Hraise 3%nat (Error (u "unavailable"))).
  - simpl. lia.
  - rewrite Hw. vm_compute. reflexivity.
  - reflexivity.
Defined.


Lemma translation_failure_passes_through_counterexample :
  stored_preference (user_world (u "ta")) (u "facebook") (u "1001")
  = Some (u "ta") /\
  (forall n text target source,
     google_translate translate_fails_env n text target source
     = Raises (Error (u "unavailable"))) /\
  exists r w',
    process_message_with_translation caseless translate_fails_env
      (u "facebook") (u "1001") (u "வணக்கம்") None (user_world (u "ta"))
    = (Returns r, w') /\
    In (Req_translate (u "வணக்கம்") (u "en") (Some (u "ta")))
       (new_events (user_world (u "ta")) w') /\
    response r = u "Hello" /\
    response r
    <> u "❌ மன்னிக்கவும், ஒரு பிழை ஏற்பட்டது. மீண்டும் முயற்சிக்கவும்.".
Proof.
  split; [vm_compute; reflexivity|]. split; [reflexivity|].
  do 2 eexists. split; [vm_compute; reflexivity|].
  split; [vm_compute; tauto|]. split; [vm_compute; reflexivity|].
  vm_compute. discriminate.
Qed.


(** ** More on Python strings *)

Lemma startswith_nil (s : pystr) : startswith s [] = true.
Proof. by destruct s. Qed.

Lemma startswith_app (old rest : pystr) : startswith (old ++ rest) old = true.
Proof.
  induction old as [|c old IH]; simpl; [apply startswith_nil|].
  rewrite N.eqb_refl. exact IH.
Qed.

Lemma startswith_prefix (s old : pystr) :
  startswith s old = true <-> exists rest, s = old ++ rest.
Proof.
  split.
  - revert s. induction old as [|p old IH]; intros s H.
    + by exists s.
    + destruct s as [|c s]; [done|]. simpl in H.
      apply andb_true_iff in H as [Hc Hs]. apply N.eqb_eq in Hc as ->.
      destruct (IH s Hs) as (rest & ->). by exists rest.
  - intros (rest & ->). apply startswith_app.
Qed.

Lemma replace_from_skip (old new pre rest : pystr) :
  replace_from old new (length pre) (pre ++ rest) = replace_from old new O rest.
Proof.
  induction pre as [|c pre IH]; simpl; [|exact IH].
  by destruct rest.
Qed.

Lemma replace_from_absent (old new s : pystr) :
  old <> [] -> occurs old s = false -> replace_from old new O s = s.
Proof.
  intros Hold. induction s as [|c s IH]; [done|].
  cbn [replace_from occurs].
  intros H. apply orb_false_iff in H as [Hs Ho].
  by rewrite Hs, IH.
Qed.

(** Removing a prefix that occurs nowhere else gives the remainder. *)
Lemma py_replace_prefix (old rest : pystr) :
  old <> [] -> occurs old rest = false -> py_replace (old ++ rest) old [] = rest.
Proof.
  intros Hold Hrest. destruct old as [|o old]; [done|].
  unfold py_replace.
  change ((o :: old) ++ rest) with (o :: (old ++ rest)).
  cbn [replace_from].
  change (o :: (old ++ rest)) with ((o :: old) ++ rest).
  rewrite startswith_app. simpl.
  rewrite replace_from_skip. by apply replace_from_absent.
Qed.

Lemma lstrip_snoc (s : pystr) (c : N) :
  is_space c = false -> lstrip (s ++ [c]) = lstrip s ++ [c].
Proof.
  intros Hc. induction s as [|d s IH]; simpl.
  - by rewrite Hc.
  - by destruct (is_space d).
Qed.

Lemma rstrip_cons (c : N) (s : pystr) :
  is_space c = false -> rstrip (c :: s) = c :: rstrip s.
Proof.
  intros Hc. unfold rstrip. simpl.
  by rewrite lstrip_snoc, rev_app_distr.
Qed.

Lemma lstrip_split (s : pystr) :
  exists ws, spaces ws /\ s = ws ++ lstrip s /\
             forall c r, lstrip s = c :: r -> is_space c = false.
Proof.
  induction s as [|c s (ws & Hws & Hs & Hhead)]; simpl.
  - exists []. by repeat split.
  - destruct (is_space c) eqn:Hc.
    + exists (c :: ws). split; [by constructor|].
      split; [simpl; by rewrite <- Hs | done].
    + exists []. split; [done|]. split; [done|]. congruence.
Qed.

Lemma rstrip_split (s : pystr) :
  exists ws, spaces ws /\ s = rstrip s ++ ws /\
             forall r c, rstrip s = r ++ [c] -> is_space c = false.
Proof.
  unfold rstrip. destruct (lstrip_split (rev s)) as (ws & Hws & Hs & Hhead).
  exists (rev ws). split; [|split].
  - apply Forall_forall. intros x Hx. rewrite Forall_forall in Hws.
    apply Hws, in_rev, Hx.
  - rewrite <- rev_app_distr, <- Hs. by rewrite rev_involutive.
  - intros r c Hc. apply (Hhead c (rev r)).
    apply (f_equal (@rev N)) in Hc.
    by rewrite rev_involutive, rev_app_distr in Hc.
Qed.

(** [strip] removes white space from both ends and nothing else: the text is
    the result between two runs of white space, and the result neither
    starts nor ends with white space. *)
Lemma py_strip_spec (s : pystr) :
  exists ws1 ws2,
    spaces ws1 /\ spaces ws2 /\ s = ws1 ++ py_strip s ++ ws2 /\
    (forall c r, py_strip s = c :: r -> is_space c = false) /\
    (forall r c, py_strip s = r ++ [c] -> is_space c = false).
Proof.
  unfold py_strip.
  destruct (lstrip_split s) as (ws1 & H1 & Hs1 & Hhead).
  destruct (rstrip_split (lstrip s)) as (ws2 & H2 & Hs2 & Hlast).
  exists ws1, ws2. split; [done|]. split; [done|]. split; [|split; [|done]].
  - by rewrite <- Hs2.
  - intros c r Hc.
    destruct (lstrip s) as [|d t] eqn:E; [done|].
    assert (is_space d = false) as Hd by (by apply (Hhead d t)).
    rewrite rstrip_cons in Hc by done. congruence.
Qed.

(** ** What a computation adds to the trace *)

Lemma emits_ret {A} (P : Event -> Prop) (a : A) : emits P (ret a).
Proof. intros w. exists []. by rewrite app_nil_r. Qed.

Lemma emits_raise {A} (P : Event -> Prop) (e : exn) : emits P (@raise A e).
Proof. intros w. exists []. by rewrite app_nil_r. Qed.

Lemma emits_bind {A B} (P : Event -> Prop) (m : M A) (k : A -> M B) :
  emits P m -> (forall a, emits P (k a)) -> emits P (bind m k).
Proof.
  intros Hm Hk w. unfold bind. destruct (Hm w) as (evs1 & Ht1 & H1).
  destruct (m w) as [[a|e] w1]; simpl in *.
  - destruct (Hk a w1) as (evs2 & Ht2 & H2).
    exists (evs1 ++ evs2). rewrite Ht2, Ht1, app_assoc.
    split; [done | by apply Forall_app].
  - by exists evs1.
Qed.

Lemma emits_try {A} (P : Event -> Prop) (m : M A) (h : exn -> M A) :
  emits P m -> (forall e, emits P (h e)) -> emits P (try_except m h).
Proof.
  intros Hm Hh w. unfold try_except. destruct (Hm w) as (evs1 & Ht1 & H1).
  destruct (m w) as [[a|e] w1]; simpl in *.
  - by exists evs1.
  - destruct (Hh e w1) as (evs2 & Ht2 & H2).
    exists (evs1 ++ evs2). rewrite Ht2, Ht1, app_assoc.
    split; [done | by apply Forall_app].
Qed.

Lemma emits_called (P : Event -> Prop) (ev : Event) : P ev -> emits P (called ev).
Proof. intros Hev w. exists [ev]. split; [done | by constructor]. Qed.

Lemma emits_request {A} (P : Event -> Prop) (ev : Event) (f : nat -> outcome A) :
  P ev -> emits P (request ev f).
Proof. intros Hev w. exists [ev]. split; [done | by constructor]. Qed.

Lemma emits_firestore_get (P : Event -> Prop) env collection doc :
  P (Req_firestore_get collection doc) ->
  emits P (firestore_get env collection doc).
Proof.
  intros Hev w. exists [Req_firestore_get collection doc].
  unfold firestore_get. split; [|by constructor].
  by destruct (firestore_get_fault env _).
Qed.

Lemma emits_firestore_set_merge (P : Event -> Prop) env collection doc fields :
  P (Req_firestore_set_merge collection doc fields) ->
  emits P (firestore_set_merge env collection doc fields).
Proof.
  intros Hev w. exists [Req_firestore_set_merge collection doc fields].
  unfold firestore_set_merge. split; [|by constructor].
  by destruct (firestore_set_fault env _).
Qed.

Lemma emits_new_events {A} (P : Event -> Prop) (m : M A) (w : World) :
  emits P m -> Forall P (new_events w (snd (m w))).
Proof.
  intros Hm. destruct (Hm w) as (evs & Ht & Hevs).
  unfold new_events. by rewrite Ht, drop_app_length.
Qed.

(** One step of the analysis of a computation's events. *)
Ltac emits_step :=
  lazymatch goal with
  | |- emits _ (bind _ _) => apply emits_bind; [|intros ?]
  | |- emits _ (try_except _ _) => apply emits_try; [|intros ?]
  | |- emits _ (ret _) => apply emits_ret
  | |- emits _ (raise _) => apply emits_raise
  | |- emits _ (called _) => apply emits_called
  | |- emits _ (request _ _) => apply emits_request
  | |- emits _ (firestore_get _ _ _) => apply emits_firestore_get
  | |- emits _ (firestore_set_merge _ _ _ _) => apply emits_firestore_set_merge
  | |- emits _ (if ?b then _ else _) => destruct b eqn:?
  | |- emits _ (match ?x with _ => _ end) => destruct x eqn:?
  | |- emits _ (let _ := _ in _) => cbv zeta
  end.

Section Events.

Variable unicode_lower : pystr -> N -> pystr -> pystr.
Variable env : Env.
Variable P : Event -> Prop.

Lemma emits_get_supported_languages :
  P Call_get_supported_languages ->
  P (Req_firestore_stream (u "ss_language_support")) ->
  emits P (get_supported_languages env).
Proof. intros. unfold get_supported_languages. repeat emits_step; done. Qed.

Lemma emits_is_language_supported language_code :
  P (Call_is_language_supported language_code) ->
  P Call_get_supported_languages ->
  P (Req_firestore_stream (u "ss_language_support")) ->
  emits P (is_language_supported env language_code).
Proof.
  intros. unfold is_language_supported.
  emits_step; [by emits_step|]. emits_step; [by apply emits_get_supported_languages|].
  emits_step.
Qed.

Lemma emits_get_user_language platform user_id :
  P (Call_get_user_language platform user_id) ->
  P (Req_firestore_get (user_details platform) user_id) ->
  emits P (get_user_language env platform user_id).
Proof. intros. unfold get_user_language. repeat emits_step; done. Qed.

Lemma emits_set_user_language platform user_id language_code :
  P (Call_set_user_language platform user_id language_code) ->
  P (Req_firestore_set_merge (user_details platform) user_id
       {[ u "preferred_language" := language_code ]}) ->
  emits P (set_user_language env platform user_id language_code).
Proof. intros. unfold set_user_language. repeat emits_step; done. Qed.

Lemma emits_detect_language text :
  P (Call_detect_language text) -> P (Req_detect text) ->
  emits P (detect_language env text).
Proof. intros. unfold detect_language. repeat emits_step; done. Qed.

(** With a source language given, [translate_text] does not detect. *)
Lemma emits_translate_text_with_source text target_language source_language :
  truthy_opt source_language = true ->
  P (Call_translate_text text target_language source_language) ->
  P (Req_translate text target_language source_language) ->
  emits P (translate_text env text target_language source_language).
Proof.
  intros Hsrc ? ?. unfold translate_text. rewrite Hsrc, andb_false_r.
  repeat emits_step; done.
Qed.

Lemma emits_invoke_bedrock_agent user_message session_id user_id :
  P (Call_invoke_bedrock_agent user_message session_id user_id) ->
  (forall agent_id agent_alias_id,
     P (Req_invoke_agent agent_id agent_alias_id session_id user_message)) ->
  emits P (invoke_bedrock_agent env user_message session_id user_id).
Proof.
  intros. unfold invoke_bedrock_agent, get_bedrock_client.
  repeat emits_step; done.
Qed.

End Events.

Section WorkflowEvents.

Variable unicode_lower : pystr -> N -> pystr -> pystr.
Variable env : Env.

Lemma truthy_en : truthy (u "en") = true.
Proof. by vm_compute. Qed.

Lemma emits_show_prompt (P : Event -> Prop) :
  P Call_get_supported_languages ->
  P (Req_firestore_stream (u "ss_language_support")) ->
  emits P (show_prompt env).
Proof.
  intros. unfold show_prompt, create_language_selection_prompt.
  emits_step; [|destruct a as [[? ?] ?]; emits_step].
  emits_step; [by apply emits_get_supported_languages|]. emits_step.
Qed.

Lemma emits_language_selection
    (P : Event -> Prop) platform user_id message_text payload :
  P Call_get_supported_languages ->
  P (Req_firestore_stream (u "ss_language_support")) ->
  (forall code,
     P (Call_is_language_supported code) /\
     P (Call_set_user_language platform user_id code) /\
     P (Req_firestore_set_merge (user_details platform) user_id
          {[ u "preferred_language" := code ]})) ->
  emits P (language_selection unicode_lower env platform user_id message_text payload).
Proof.
  intros H1 H2 H3. unfold language_selection.
  destruct (is_language_selection_response _ _ _) as [selected|];
    [|by apply emits_show_prompt].
  destruct (truthy selected); [|by apply emits_show_prompt].
  destruct (H3 selected) as (? & ? & ?).
  emits_step; [by apply emits_is_language_supported|].
  destruct a; [|by apply emits_show_prompt].
  emits_step; [by apply emits_set_user_language | emits_step].
Qed.

Lemma emits_translation_pipeline (P : Event -> Prop) user_id message_text lang :
  truthy lang = true ->
  (forall text,
     P (Call_translate_text text (u "en") (Some lang)) /\
     P (Req_translate text (u "en") (Some lang)) /\
     P (Call_translate_text text lang (Some (u "en"))) /\
     P (Req_translate text lang (Some (u "en"))) /\
     P (Call_invoke_bedrock_agent text user_id (Some user_id)) /\
     forall agent_id agent_alias_id,
       P (Req_invoke_agent agent_id agent_alias_id user_id text)) ->
  emits P (translation_pipeline env user_id message_text lang).
Proof.
  intros Hlang HP. unfold translation_pipeline.
  repeat first
    [ emits_step
    | apply emits_translate_text_with_source
    | apply emits_invoke_bedrock_agent ];
    try exact truthy_en; try exact Hlang;
    try (intros; edestruct HP as (? & ? & ? & ? & ? & ?); eauto; fail).
Qed.

(** The whole call, for a property of events that holds of everything the
    two cases can add. *)
Lemma emits_process_message
    (P : Event -> Prop) platform user_id message_text payload :
  P (Call_get_user_language platform user_id) ->
  P (Req_firestore_get (user_details platform) user_id) ->
  P Call_get_supported_languages ->
  P (Req_firestore_stream (u "ss_language_support")) ->
  (forall code,
     P (Call_is_language_supported code) /\
     P (Call_set_user_language platform user_id code) /\
     P (Req_firestore_set_merge (user_details platform) user_id
          {[ u "preferred_language" := code ]})) ->
  (forall lang text,
     truthy lang = true ->
     P (Call_translate_text text (u "en") (Some lang)) /\
     P (Req_translate text (u "en") (Some lang)) /\
     P (Call_translate_text text lang (Some (u "en"))) /\
     P (Req_translate text lang (Some (u "en"))) /\
     P (Call_invoke_bedrock_agent text user_id (Some user_id)) /\
     forall agent_id agent_alias_id,
       P (Req_invoke_agent agent_id agent_alias_id user_id text)) ->
  emits P (process_message_with_translation unicode_lower env
             platform user_id message_text payload).
Proof.
  intros H1 H2 H3 H4 H5 H6. unfold process_message_with_translation.
  emits_step; [by apply emits_get_user_language|].
  destruct a as [lang|]; [|by apply emits_language_selection].
  destruct (truthy lang) eqn:Hlang; [|by apply emits_language_selection].
  apply emits_translation_pipeline; [done|]. intros text. by apply H6.
Qed.

Lemma new_events_of_run {A} (P : Event -> Prop) (m : M A) w o w' :
  emits P m -> m w = (o, w') -> Forall P (new_events w w').
Proof.
  intros Hm Hrun. pose proof (emits_new_events P m w Hm) as H.
  by rewrite Hrun in H.
Qed.

(** X1: the call never detects a language, and every translation it asks for
    names its source language. *)
Theorem workflow_never_detects platform user_id message_text payload w :
  Forall (fun ev => is_detection_event ev = false /\ names_source ev)
         (new_events w
            (snd (process_message_with_translation unicode_lower env
                    platform user_id message_text payload w))).
Proof. apply emits_new_events. apply emits_process_message; done. Qed.

(** X2: every agent call and agent request of the call carries the user id as
    its session id. *)
Theorem workflow_session_is_user platform user_id message_text payload w :
  Forall (session_is user_id)
         (new_events w
            (snd (process_message_with_translation unicode_lower env
                    platform user_id message_text payload w))).
Proof. apply emits_new_events. apply emits_process_message; done. Qed.

(** X3: while no language is seen for the user, the call reaches neither the
    agent nor the translation gateway. *)
Theorem awaiting_calls_no_agent platform user_id message_text payload o w w0 r w' :
  get_user_language env platform user_id w = (Returns o, w0) ->
  truthy_opt o = false ->
  process_message_with_translation unicode_lower env
    platform user_id message_text payload w = (r, w') ->
  Forall (fun ev => is_agent_event ev = false /\ is_translation_event ev = false)
         (new_events w w').
Proof.
  intros Hget Ho Hrun.
  rewrite (process_awaiting _ _ _ _ _ _ _ _ _ Hget Ho) in Hrun.
  pose proof (get_user_language_world _ _ _ _ _ _ Hget) as ->.
  destruct (emits_language_selection
              (fun ev => is_agent_event ev = false /\ is_translation_event ev = false)
              platform user_id message_text payload
              ltac:(done) ltac:(done) ltac:(done)
              (extend w [Call_get_user_language platform user_id;
                         Req_firestore_get (user_details platform) user_id]))
    as (evs & Ht & Hevs).
  rewrite Hrun in Ht. simpl in Ht. rewrite <- app_assoc in Ht.
  unfold new_events. rewrite Ht, drop_app_length.
  apply Forall_app. split; [by repeat constructor | done].
Qed.

End WorkflowEvents.

(** ** More on the gateways *)

Section MoreGatewayFacts.

Variable env : Env.

(** X4: [detect_language] never raises; it answers [en] when there is no
    translation client and when the detection request it makes raises. *)
Theorem detect_language_never_raises (text : pystr) (w : World) :
  exists detected w',
    detect_language env text w = (Returns detected, w') /\
    users w' = users w /\
    (translate_client env = false ->
     detected = u "en" /\ new_events w w' = [Call_detect_language text]) /\
    (forall n e,
       (length (trace w) <= n)%nat ->
       trace w' !! n = Some (Req_detect text) ->
       google_detect env n text = Raises e ->
       detected = u "en").
Proof.
  unfold detect_language. run_monad.
  destruct (translate_client env); simpl.
  - rewrite length_app. simpl.
    destruct (google_detect env _ text) as [code|e0] eqn:E; simpl.
    + do 2 eexists. split; [reflexivity|]. split; [done|]. split; [done|].
      intros n e Hn Hev Hraise. simpl in Hev. rewrite <- app_assoc in Hev.
      apply lookup_new_event in Hev; [|done].
      destruct (n - length (trace w))%nat as [|[|k]] eqn:Ek; simplify_eq/=.
      replace n with (length (trace w) + 1)%nat in Hraise by lia. congruence.
    + do 2 eexists. split; [reflexivity|]. by repeat split.
  - do 2 eexists. split; [reflexivity|]. split; [done|]. split; [|done].
    intros _. split; [done|]. unfold new_events. simpl.
    by rewrite drop_app_length.
Qed.

(** X5: with English as the target and no source language, [translate_text]
    trusts detection: when the text is detected as English, and also when the
    detection request raises, it returns the text as it is and sends no
    translate request. *)
Theorem translate_text_english_shortcut
    (text : pystr) (source_language : option pystr) (w : World) :
  translate_client env = true ->
  truthy_opt source_language = false ->
  google_detect env (length (trace w) + 2) text = Returns (u "en")
  \/ (exists e, google_detect env (length (trace w) + 2) text = Raises e) ->
  translate_text env text (u "en") source_language w
  = (Returns text,
     extend w [Call_translate_text text (u "en") source_language;
               Call_detect_language text;
               Req_detect text]).
Proof.
  intros Hc Hsrc Hdet. unfold translate_text, detect_language. run_monad.
  rewrite Hc, Hsrc. simpl.
  replace (str_eqb (u "en") (u "en")) with true
    by (symmetry; by apply str_eqb_true).
  simpl. rewrite !length_app. simpl.
  replace (length (trace w) + 1 + 1)%nat with (length (trace w) + 2)%nat by lia.
  destruct Hdet as [->|[e ->]]; simpl.
  - replace (str_eqb (u "en") (u "en")) with true
      by (symmetry; by apply str_eqb_true).
    same_run.
  - replace (str_eqb (u "en") (u "en")) with true
      by (symmetry; by apply str_eqb_true).
    same_run.
Qed.

(** X6: a preference saved by [set_user_language] is what [get_user_language]
    returns next, when its read succeeds. *)
Theorem set_then_get (platform user_id language_code : pystr) (w w1 : World) :
  set_user_language env platform user_id language_code w = (Returns true, w1) ->
  firestore_get_fault env (S (length (trace w1))) = None ->
  exists w2,
    get_user_language env platform user_id w1
    = (Returns (Some language_code), w2) /\
    users w2 = users w1.
Proof.
  intros Hset Hread.
  pose proof (set_user_language_users env _ _ _ _ _ _ Hset) as Hu. simpl in Hu.
  pose proof (stored_preference_saved _ _ _ _ _ Hu) as Hstored.
  rewrite get_user_language_run, Hread, Hstored. by eexists.
Qed.

(** X7: saving the same code again changes no document; saving another code
    replaces the first. *)
Theorem set_user_language_twice
    (platform user_id code1 code2 : pystr) (w w1 w2 : World) :
  set_user_language env platform user_id code1 w = (Returns true, w1) ->
  set_user_language env platform user_id code2 w1 = (Returns true, w2) ->
  stored_preference w2 platform user_id = Some code2 /\
  (code1 = code2 -> users w2 = users w1).
Proof.
  intros Hset1 Hset2.
  pose proof (set_user_language_users env _ _ _ _ _ _ Hset1) as Hu1.
  pose proof (set_user_language_users env _ _ _ _ _ _ Hset2) as Hu2.
  simpl in *. split; [by apply (stored_preference_saved _ _ _ w1)|].
  intros <-. rewrite Hu2, Hu1, lookup_insert_eq, insert_insert_eq. simpl.
  f_equal. by rewrite (assoc (∪)), (idemp (∪)).
Qed.

(** X8: [set_user_language] merges: the other fields of the user's document and
    every other document stay as they are. *)
Theorem set_user_language_merges
    (platform user_id language_code : pystr) (saved : bool) (w w1 : World) :
  set_user_language env platform user_id language_code w = (Returns saved, w1) ->
  (forall key, key <> (user_details platform, user_id) ->
     users w1 !! key = users w !! key) /\
  (forall field, field <> u "preferred_language" ->
     users w1 !! (user_details platform, user_id) ≫= (fun doc => doc !! field)
     = users w !! (user_details platform, user_id) ≫= (fun doc => doc !! field)).
Proof.
  intros Hset.
  pose proof (set_user_language_users env _ _ _ _ _ _ Hset) as Hu.
  destruct saved; simpl in Hu; rewrite Hu; [|done].
  split.
  - intros key Hkey. by rewrite lookup_insert_ne.
  - intros field Hfield. rewrite lookup_insert_eq. simpl.
    rewrite lookup_union_r by (by apply lookup_singleton_ne).
    by destruct (users w !! (user_details platform, user_id)).
Qed.

End MoreGatewayFacts.

Section DirectoryFacts.

Variable env : Env.

(** What [get_supported_languages] returns for an answer of the collection
    read. *)
Lemma get_supported_languages_value (w : World) :
  fst (get_supported_languages env w)
  = Returns
      match ss_language_support env (S (length (trace w))) with
      | Returns (doc :: docs) =>
        map (fun doc =>
               {| code := default (doc_id doc) (doc_to_dict doc !! u "code");
                  name := default (doc_id doc) (doc_to_dict doc !! u "name") |})
            (doc :: docs)
      | _ => default_languages
      end.
Proof.
  unfold get_supported_languages. run_monad. unfold record. simpl.
  rewrite length_app, Nat.add_1_r.
  by destruct (ss_language_support env _) as [[|d docs]|e].
Qed.

Lemma is_language_supported_iff_holds (language_code : pystr) (w : World) :
  exists (supported : bool) w',
    is_language_supported env language_code w = (Returns supported, w') /\
    match ss_language_support env (length (trace w) + 2) with
    | Returns (doc :: docs) =>
      supported = true <->
      exists d, d ∈ doc :: docs /\
                default (doc_id d) (doc_to_dict d !! u "code") = language_code
    | _ =>
      supported = true <->
      language_code = u "en" \/ language_code = u "ta" \/ language_code = u "ml"
    end.
Proof.
  unfold is_language_supported. unfold bind at 1 2. unfold called, ret.
  pose proof (get_supported_languages_value
                (record (Call_is_language_supported language_code) w)) as Hv.
  destruct (get_supported_languages env _) as [o w1]. cbn [fst] in Hv. subst o.
  unfold record in *. cbn [trace fst snd]. rewrite length_app.
  cbn [length]. 
  replace (S (length (trace w) + 1)) with (length (trace w) + 2)%nat by lia.
  do 2 eexists. split; [reflexivity|].
  destruct (ss_language_support env _) as [[|d docs]|e];
    rewrite bool_decide_eq_true.
  - vm_compute default_languages. simpl. rewrite !elem_of_cons, elem_of_nil.
    replace (u "en") with [101; 110] by (by vm_compute).
    replace (u "ta") with [116; 97] by (by vm_compute).
    replace (u "ml") with [109; 108] by (by vm_compute).
    tauto.
  - generalize (d :: docs). intros ds.
    rewrite list_elem_of_In, in_map_iff. split.
    + intros (l & <- & Hl). apply in_map_iff in Hl as (d0 & <- & Hd0).
      exists d0. split; [by apply list_elem_of_In | done].
    + intros (d0 & Hd0 & <-). eexists. split; [|apply in_map_iff; eexists; split;
        [reflexivity | by apply list_elem_of_In]].
      done.
  - vm_compute default_languages. simpl. rewrite !elem_of_cons, elem_of_nil.
    replace (u "en") with [101; 110] by (by vm_compute).
    replace (u "ta") with [116; 97] by (by vm_compute).
    replace (u "ml") with [109; 108] by (by vm_compute).
    tauto.
Qed.

(** X9: [is_language_supported] compares codes exactly.  When the read of the
    collection fails or yields no document, the supported codes are [en],
    [ta] and [ml]; otherwise a code is supported when some document carries
    it in its [code] field, or has no [code] field and carries it as its
    id. *)
Theorem is_language_supported_iff (language_code : pystr) (w : World) :
  exists (supported : bool) w',
    is_language_supported env language_code w = (Returns supported, w') /\
    match ss_language_support env (length (trace w) + 2) with
    | Returns (doc :: docs) =>
      supported = true <->
      exists d, d ∈ doc :: docs /\
                default (doc_id d) (doc_to_dict d !! u "code") = language_code
    | _ =>
      supported = true <->
      language_code = u "en" \/ language_code = u "ta" \/ language_code = u "ml"
    end.
Proof. apply is_language_supported_iff_holds. Qed.

End DirectoryFacts.

Section AgentFacts.

Variable env : Env.

(** X10: without an agent id or an agent alias id, [invoke_bedrock_agent] raises
    [ValueError] and sends nothing; with them but without AWS credentials it
    raises [ValueError] as well, again before any request. *)
Theorem invoke_bedrock_agent_unconfigured
    (user_message session_id : pystr) (user_id : option pystr) (w : World) :
  (truthy_opt (environ env (u "AWS_BEDROCK_AGENT_ID")) = false
   \/ truthy_opt (environ env (u "AWS_BEDROCK_AGENT_ALIAS_ID")) = false ->
   invoke_bedrock_agent env user_message session_id user_id w
   = (Raises (ValueError (u "AWS Bedrock Agent ID or Alias ID not configured.")),
      extend w [Call_invoke_bedrock_agent user_message session_id user_id]))
  /\
  (truthy_opt (environ env (u "AWS_BEDROCK_AGENT_ID")) = true ->
   truthy_opt (environ env (u "AWS_BEDROCK_AGENT_ALIAS_ID")) = true ->
   truthy_opt (environ env (u "AWS_ACCESS_KEY")) = false
   \/ truthy_opt (environ env (u "AWS_SECRET_KEY")) = false ->
   invoke_bedrock_agent env user_message session_id user_id w
   = (Raises (ValueError (u "AWS credentials not configured.")),
      extend w [Call_invoke_bedrock_agent user_message session_id user_id])).
Proof.
  unfold invoke_bedrock_agent, get_bedrock_client, get_config.
  unfold bind at 1. unfold called.
  split.
  - intros H.
    destruct (environ env (u "AWS_BEDROCK_AGENT_ID")) as [agent_id|];
      destruct (environ env (u "AWS_BEDROCK_AGENT_ALIAS_ID")) as [alias|];
      cbn [truthy_opt] in H; try reflexivity.
    destruct (truthy agent_id), (truthy alias); cbn [andb];
      try reflexivity.
    destruct H; discriminate.
  - intros Hid Halias H.
    destruct (environ env (u "AWS_BEDROCK_AGENT_ID")) as [agent_id|];
      [|discriminate Hid].
    destruct (environ env (u "AWS_BEDROCK_AGENT_ALIAS_ID")) as [alias|];
      [|discriminate Halias].
    cbn [truthy_opt] in Hid, Halias. rewrite Hid, Halias. cbn [andb].
    unfold try_except, bind, raise, ret.
    destruct (environ env (u "AWS_ACCESS_KEY")) as [access|];
      destruct (environ env (u "AWS_SECRET_KEY")) as [secret|];
      cbn [truthy_opt] in H; try reflexivity.
    destruct (truthy access), (truthy secret); cbn [andb];
      try reflexivity.
    destruct H; discriminate.
Qed.

(** X11: with the agent and the credentials configured and the service answering,
    [invoke_bedrock_agent] sends one request, for the configured agent, with
    the session id and the message as given.  Its response is the text of the
    chunks joined in arrival order, without the white space around it, and
    with nothing else removed; the session id is returned as given. *)
Theorem invoke_bedrock_agent_answers
    (user_message session_id : pystr) (user_id : option pystr) (w : World)
    (agent_id agent_alias_id access secret : pystr)
    (events : list (option pystr)) :
  environ env (u "AWS_BEDROCK_AGENT_ID") = Some agent_id ->
  environ env (u "AWS_BEDROCK_AGENT_ALIAS_ID") = Some agent_alias_id ->
  environ env (u "AWS_ACCESS_KEY") = Some access ->
  environ env (u "AWS_SECRET_KEY") = Some secret ->
  truthy agent_id = true -> truthy agent_alias_id = true ->
  truthy access = true -> truthy secret = true ->
  (forall region, boto3_client_fault env region access secret = None) ->
  bedrock_invoke_agent env (S (length (trace w)))
    agent_id agent_alias_id session_id user_message = Returns events ->
  exists result ws1 ws2,
    invoke_bedrock_agent env user_message session_id user_id w
    = (Returns result,
       extend w [Call_invoke_bedrock_agent user_message session_id user_id;
                 Req_invoke_agent agent_id agent_alias_id session_id user_message]) /\
    agent_session_id result = session_id /\
    spaces ws1 /\ spaces ws2 /\
    concat (map (default []) events) = ws1 ++ agent_response result ++ ws2 /\
    (forall c r, agent_response result = c :: r -> is_space c = false) /\
    (forall r c, agent_response result = r ++ [c] -> is_space c = false).
Proof.
  intros Hid Halias Haccess Hsecret Tid Talias Taccess Tsecret Hboto Hanswer.
  destruct (py_strip_spec (concat (map (default []) events)))
    as (ws1 & ws2 & H1 & H2 & Hsplit & Hhead & Hlast).
  exists {| agent_response := py_strip (concat (map (default []) events));
            agent_session_id := session_id |}, ws1, ws2.
  split; [|by repeat split].
  unfold invoke_bedrock_agent, get_bedrock_client, get_config. run_monad.
  rewrite Hid, Halias, Haccess, Hsecret, Tid, Talias, Taccess, Tsecret. simpl.
  rewrite Hboto. unfold record at 1. simpl. rewrite length_app, Nat.add_1_r.
  rewrite Hanswer. simpl. same_run.
Qed.

End AgentFacts.

(** ** More on the parser and the prompt *)

Section MoreParserFacts.

Variable unicode_lower : pystr -> N -> pystr -> pystr.

Lemma LANG_literal : u "LANG_" = [76; 65; 78; 71; 95].
Proof. by vm_compute. Qed.

Lemma lang_literal : u "lang_" = [108; 97; 110; 103; 95].
Proof. by vm_compute. Qed.

Lemma payload_round_trip_holds (message_text code : pystr) :
  (occurs (u "LANG_") code = false ->
   is_language_selection_response unicode_lower message_text
     (Some (u "LANG_" ++ code)) = Some code) /\
  (occurs (u "lang_") code = false ->
   is_language_selection_response unicode_lower message_text
     (Some (u "lang_" ++ code)) = Some code).
Proof.
  unfold is_language_selection_response. split; intros Hcode.
  - rewrite startswith_app.
    rewrite py_replace_prefix; [| by rewrite LANG_literal | done].
    by rewrite LANG_literal.
  - rewrite startswith_app.
    rewrite py_replace_prefix; [| by rewrite lang_literal | done].
    by rewrite lang_literal, LANG_literal.
Qed.

(** X12: a payload made of a prefix and a code in which the prefix does not occur
    is parsed back to the code, whatever the message text. *)
Theorem payload_round_trip (message_text code : pystr) :
  (occurs (u "LANG_") code = false ->
   is_language_selection_response unicode_lower message_text
     (Some (u "LANG_" ++ code)) = Some code) /\
  (occurs (u "lang_") code = false ->
   is_language_selection_response unicode_lower message_text
     (Some (u "lang_" ++ code)) = Some code).
Proof. apply payload_round_trip_holds. Qed.

Lemma free_text_selects_seed_languages_holds
    (message_text : pystr) (payload : option pystr) (selected : pystr) :
  no_payload_selection payload ->
  is_language_selection_response unicode_lower message_text payload
  = Some selected ->
  selected = u "en" \/ selected = u "ta" \/ selected = u "ml".
Proof.
  intros Hp. rewrite (selection_by_text _ _ _ Hp), language_map_lookup.
  repeat case_decide; intros; simplify_eq; auto.
Qed.

(** X13: free text selects only [en], [ta] or [ml]: a language that is only in
    the directory cannot be chosen by typing. *)
Theorem free_text_selects_seed_languages
    (message_text : pystr) (payload : option pystr) (selected : pystr) :
  no_payload_selection payload ->
  is_language_selection_response unicode_lower message_text payload
  = Some selected ->
  selected = u "en" \/ selected = u "ta" \/ selected = u "ml".
Proof. apply free_text_selects_seed_languages_holds. Qed.

(** X14: every key of the free-text map is recognised in any letter case and
    between any white space. *)
Theorem free_text_any_case
    (key value ws1 v ws2 : pystr) (payload : option pystr) :
  language_map !! key = Some value ->
  no_payload_selection payload ->
  (forall b c a, 128 <= c -> is_space c = true -> spaces (unicode_lower b c a)) ->
  spaces ws1 -> spaces ws2 -> Forall2 letter_of key v ->
  is_language_selection_response unicode_lower (ws1 ++ v ++ ws2) payload
  = Some value.
Proof.
  intros Hkey Hp Hul H1 H2 Hv.
  rewrite (selection_by_text _ _ _ Hp).
  assert (exists first middle last,
            key = first :: middle ++ [last] /\
            Forall (fun k => 97 <= k <= 122) key) as (first & middle & last & Hk & Hletters).
  { rewrite language_map_lookup in Hkey.
    repeat case_decide; simplify_eq;
      match goal with
      | |- context [u ?lit] =>
        let k := eval vm_compute in (u lit) in
        change (u lit) with k
      end.
    - exists 101, [110; 103; 108; 105; 115], 104. split; [done|]. repeat constructor; lia.
    - exists 116, [97; 109; 105], 108. split; [done|]. repeat constructor; lia.
    - exists 109, [97; 108; 97; 121; 97; 108; 97], 109. split; [done|]. repeat constructor; lia.
    - exists 101, [], 110. split; [done|]. repeat constructor; lia.
    - exists 116, [], 97. split; [done|]. repeat constructor; lia.
    - exists 109, [], 108. split; [done|]. repeat constructor; lia. }
  rewrite Hk in Hv, Hletters.
  rewrite (normalise_word unicode_lower ws1 ws2 first middle last v); try done.
  by rewrite <- Hk.
Qed.

End MoreParserFacts.

Section PromptFacts.

Variable unicode_lower : pystr -> N -> pystr -> pystr.
Variable env : Env.

Lemma Forall2_map_diag {A B} (P : A -> B -> Prop) (f : A -> B) (l : list A) :
  (forall x, P x (f x)) -> Forall2 P l (map f l).
Proof. intros H. induction l; simpl; by constructor. Qed.

(** X15: the prompt offers one quick reply per language of the directory and one
    button for each of the first three, at least one and at most three
    buttons.  Tapping an entry selects its language: the payload of a quick
    reply, and the id of a button, is parsed back to the code of its language
    (for a code in which the prefix does not occur). *)
Theorem prompt_entries_select_their_language (message_text : pystr) (w : World) :
  exists languages replies btns w',
    get_supported_languages env w = (Returns languages, w') /\
    create_language_selection_prompt env w
    = (Returns (prompt_text, replies, btns), w') /\
    users w' = users w /\
    Forall2 (fun lang reply =>
               title reply = name lang /\
               (occurs (u "LANG_") (code lang) = false ->
                is_language_selection_response unicode_lower message_text
                  (Some (payload reply)) = Some (code lang)))
            languages replies /\
    Forall2 (fun lang button =>
               button_title button = name lang /\
               (occurs (u "lang_") (code lang) = false ->
                is_language_selection_response unicode_lower message_text
                  (Some (id button)) = Some (code lang)))
            (take 3 languages) btns /\
    (1 <= length btns <= 3)%nat.
Proof.
  destruct (get_supported_languages_run env w) as (languages & Hrun & Hne).
  exists languages. do 2 eexists. exists (extend w
    [Call_get_supported_languages; Req_firestore_stream (u "ss_language_support")]).
  split; [exact Hrun|].
  split; [unfold create_language_selection_prompt, bind; rewrite Hrun; reflexivity|].
  split; [done|]. split; [|split].
  - apply Forall2_map_diag. intros lang. split; [done|].
    apply payload_round_trip_holds.
  - apply Forall2_map_diag. intros lang. split; [done|].
    apply payload_round_trip_holds.
  - rewrite length_map, length_take. destruct languages; [done|].
    cbn [length]. lia.
Qed.

End PromptFacts.

(** ** More on the workflow *)

Section MoreWorkflowFacts.

Variable unicode_lower : pystr -> N -> pystr -> pystr.
Variable env : Env.

Lemma user_details_inj (p1 p2 : pystr) : user_details p1 = user_details p2 -> p1 = p2.
Proof.
  unfold user_details. intros H.
  apply app_inv_head in H. by apply app_inv_tail in H.
Qed.

(** X16: handling a message of one user leaves every other document as it is,
    and of the user's own document every field but [preferred_language]; so
    no other user's stored preference changes. *)
Theorem other_users_untouched platform user_id message_text payload w :
  let w' := snd (process_message_with_translation unicode_lower env
                   platform user_id message_text payload w) in
  (forall key, key <> (user_details platform, user_id) ->
     users w' !! key = users w !! key) /\
  (forall field, field <> u "preferred_language" ->
     users w' !! (user_details platform, user_id) ≫= (fun doc => doc !! field)
     = users w !! (user_details platform, user_id) ≫= (fun doc => doc !! field)) /\
  (forall platform' user_id',
     (platform', user_id') <> (platform, user_id) ->
     stored_preference w' platform' user_id'
     = stored_preference w platform' user_id').
Proof.
  destruct (process_message_with_translation unicode_lower env
              platform user_id message_text payload w) as [o w'] eqn:Hrun.
  cbn [snd]. cbv zeta.
  assert (users w' = users w
          \/ exists selected,
               users w' =
                 <[(user_details platform, user_id) :=
                     {[ u "preferred_language" := selected ]}
                     ∪ default ∅ (users w !! (user_details platform, user_id))]>
                   (users w)) as Hu.
  { pose proof (get_user_language_run env platform user_id w) as Hget.
    set (seen := match firestore_get_fault env _ with
                 | Some _ => None
                 | None => stored_preference w platform user_id
                 end) in Hget.
    destruct (truthy_opt seen) eqn:Hseen.
    - destruct seen as [lang|]; [|done]. simpl in Hseen.
      rewrite (process_active _ _ _ _ _ _ _ _ _ Hget Hseen) in Hrun.
      destruct (translation_pipeline_returns env user_id message_text lang
                  (extend w [Call_get_user_language platform user_id;
                             Req_firestore_get (user_details platform) user_id]))
        as (r & evs & Hpipe).
      rewrite Hpipe in Hrun. injection Hrun as _ <-. by left.
    - rewrite (process_awaiting _ _ _ _ _ _ _ _ _ Hget Hseen) in Hrun.
      destruct (language_selection_run unicode_lower env
                  platform user_id message_text payload
                  (extend w [Call_get_user_language platform user_id;
                             Req_firestore_get (user_details platform) user_id]))
        as (r & w1 & Hsel & [Hsame|(selected & w2 & _ & _ & _ & Hsaved)]);
        rewrite Hsel in Hrun; injection Hrun as _ <-.
      + by left.
      + right. by exists selected. }
  assert (forall key, key <> (user_details platform, user_id) ->
            users w' !! key = users w !! key) as Hother.
  { intros key Hkey. destruct Hu as [->|(selected & ->)]; [done|].
    by rewrite lookup_insert_ne. }
  split; [exact Hother|]. split.
  - intros field Hfield. destruct Hu as [->|(selected & ->)]; [done|].
    rewrite lookup_insert_eq. simpl.
    rewrite lookup_union_r by (by apply lookup_singleton_ne).
    by destruct (users w !! (user_details platform, user_id)).
  - intros platform' user_id' Hne. unfold stored_preference.
    rewrite Hother; [done|].
    intros Heq. apply Hne.
    pose proof (f_equal fst Heq) as Hp. pose proof (f_equal snd Heq) as Hid.
    cbn [fst snd] in Hp, Hid. apply user_details_inj in Hp. by subst.
Qed.


Lemma response_shape_holds platform user_id message_text payload w :
  exists r,
    fst (process_message_with_translation unicode_lower env
           platform user_id message_text payload w) = Returns r /\
    ((quick_replies r = None /\ buttons r = None)
     \/ exists replies btns,
          response r = prompt_text /\
          quick_replies r = Some replies /\ buttons r = Some btns /\
          (1 <= length btns <= 3)%nat /\
          (length btns <= length replies)%nat /\
          map button_title btns = take 3 (map title replies)).
Proof.
  destruct (process_message_with_translation unicode_lower env
              platform user_id message_text payload w) as [o w'] eqn:Hrun.
  cbn [fst].
  assert (forall w0, exists r w1,
            show_prompt env w0 = (Returns r, w1) /\
            exists replies btns,
              response r = prompt_text /\
              quick_replies r = Some replies /\ buttons r = Some btns /\
              (1 <= length btns <= 3)%nat /\
              (length btns <= length replies)%nat /\
              map button_title btns = take 3 (map title replies)) as Hprompt.
  { intros w0. destruct (show_prompt_run env w0) as (languages & Hdir & ->).
    destruct (get_supported_languages_run env w0) as (languages' & Hdir' & Hne).
    rewrite Hdir in Hdir'. injection Hdir' as <-.
    do 2 eexists. split; [reflexivity|]. do 2 eexists. simpl.
    split; [done|]. split; [done|]. split; [done|].
    rewrite !length_map, length_take. split; [|split].
    - destruct languages; [done|]. cbn [length]. lia.
    - lia.
    - rewrite !map_map. cbn [button_title title]. by rewrite firstn_map. }
  pose proof (get_user_language_run env platform user_id w) as Hget.
  set (seen := match firestore_get_fault env _ with
               | Some _ => None
               | None => stored_preference w platform user_id
               end) in Hget.
  destruct (truthy_opt seen) eqn:Hseen.
  - destruct seen as [lang|]; [|done]. simpl in Hseen.
    rewrite (process_active _ _ _ _ _ _ _ _ _ Hget Hseen) in Hrun.
    unfold translation_pipeline, try_except in Hrun.
    match type of Hrun with
    | context [bind ?m ?k ?w0] => destruct (bind m k w0) as [[r|e] w1] eqn:E
    end; simpl in Hrun.
    + injection Hrun as <- _. exists r. split; [done|]. left.
      unfold bind, ret in E.
      repeat match type of E with
             | context [match ?x with _ => _ end] => destruct x; try discriminate
             end; by simplify_eq.
    + unfold ret in Hrun. injection Hrun as <- _. eexists. split; [done|]. by left.
  - rewrite (process_awaiting _ _ _ _ _ _ _ _ _ Hget Hseen) in Hrun.
    unfold language_selection in Hrun.
    destruct (is_language_selection_response _ _ _) as [selected|].
    2:{ destruct (Hprompt (extend w [Call_get_user_language platform user_id;
                                     Req_firestore_get (user_details platform) user_id]))
          as (r & w1 & Hp & Hshape).
        rewrite Hp in Hrun. injection Hrun as <- _. exists r. split; [done|]. by right. }
    destruct (truthy selected).
    2:{ destruct (Hprompt (extend w [Call_get_user_language platform user_id;
                                     Req_firestore_get (user_details platform) user_id]))
          as (r & w1 & Hp & Hshape).
        rewrite Hp in Hrun. injection Hrun as <- _. exists r. split; [done|]. by right. }
    unfold bind in Hrun.
    destruct (is_language_supported_run env selected
                (extend w [Call_get_user_language platform user_id;
                           Req_firestore_get (user_details platform) user_id]))
      as ([|] & Hsup); rewrite Hsup in Hrun.
    + rewrite set_user_language_run in Hrun. unfold ret in Hrun.
      destruct (firestore_set_fault env _); injection Hrun as <- _;
        eexists; (split; [done|]); by left.
    + match type of Hrun with
      | show_prompt env ?w0 = _ => destruct (Hprompt w0) as (r & w1 & Hp & Hshape)
      end.
      rewrite Hp in Hrun. injection Hrun as <- _. exists r. split; [done|]. by right.
Qed.

(** X18: the shape of every response: either it carries text only, or it is the
    prompt, with at least one quick reply, at least one and at most three
    buttons, and the buttons titled as the first quick replies, in order. *)
Theorem response_shape platform user_id message_text payload w :
  exists r,
    fst (process_message_with_translation unicode_lower env
           platform user_id message_text payload w) = Returns r /\
    ((quick_replies r = None /\ buttons r = None)
     \/ exists replies btns,
          response r = prompt_text /\
          quick_replies r = Some replies /\ buttons r = Some btns /\
          (1 <= length btns <= 3)%nat /\
          (length btns <= length replies)%nat /\
          map button_title btns = take 3 (map title replies)).
Proof. apply response_shape_holds. Qed.

(** X19: typing the name or the code of English, Tamil or Malayalam always works
    while the directory cannot be read or is empty: the free-text selection
    is supported by the fallback directory, and the localized confirmation
    for it is the response. *)
Theorem typed_selection_on_fallback
    platform user_id message_text payload seen selected w w0 :
  get_user_language env platform user_id w = (Returns seen, w0) ->
  truthy_opt seen = false ->
  no_payload_selection payload ->
  is_language_selection_response unicode_lower message_text payload
  = Some selected ->
  ss_language_support env (length (trace w0) + 2) = Returns []
  \/ (exists e, ss_language_support env (length (trace w0) + 2) = Raises e) ->
  exists confirmation w',
    confirmations !! selected = Some confirmation /\
    process_message_with_translation unicode_lower env
      platform user_id message_text payload w
    = (Returns (text_only confirmation), w').
Proof.
  intros Hget Hseen Hp Hsel Hdir.
  pose proof (free_text_selects_seed_languages_holds unicode_lower _ _ _ Hp Hsel) as Hseed.
  destruct (is_language_supported_iff_holds env selected w0) as (b & w1 & Hsup & Hiff).
  assert (b = true) as ->.
  { destruct Hdir as [Hd|[e Hd]]; rewrite Hd in Hiff; by apply Hiff. }
  assert (truthy selected = true) as Ht.
  { destruct Hseed as [->|[->| ->]]; by vm_compute. }
  destruct (set_user_language env platform user_id selected w1)
    as [[saved|e] w2] eqn:Hset.
  2:{ rewrite set_user_language_run in Hset.
      destruct (firestore_set_fault env _); discriminate. }
  rewrite (awaiting_confirmation _ _ _ _ _ _ _ _ _ _ _ _ _ Hget Hseen Hsel Ht Hsup Hset).
  unfold get_or_en.
  destruct Hseed as [->|[->| ->]]; do 2 eexists; (split; [by vm_compute|]);
    do 2 f_equal; by vm_compute.
Qed.

End MoreWorkflowFacts.

(** ** The outbound transports *)

Section TransportFacts.

Variable env : Env.
Variable post : HttpPost -> outcome unit.

Lemma post_and_log_returns (request : HttpPost) :
  post_and_log post request = (Returns tt, [request]).
Proof. unfold post_and_log. by destruct (post request). Qed.

(** X20: the three senders never raise, also when the post fails; each posts at
    most one request, and none without its access token (WhatsApp: none
    without its phone number id either). *)
Theorem transports_fail_safe
    (recipient text : pystr)
    (quick_replies : option (list QuickReply)) (buttons : option (list Button)) :
  let fb := send_facebook_message env post recipient text quick_replies in
  let ig := send_instagram_message env post recipient text quick_replies in
  let wa := send_whatsapp_message env post recipient text buttons in
  (fst fb = Returns tt /\ fst ig = Returns tt /\ fst wa = Returns tt) /\
  (length (snd fb) <= 1 /\ length (snd ig) <= 1 /\ length (snd wa) <= 1)%nat /\
  (truthy_opt (environ env (u "FACEBOOK_PAGE_ACCESS_TOKEN")) = false ->
   snd fb = [] /\
   (truthy_opt (environ env (u "INSTAGRAM_PAGE_ACCESS_TOKEN")) = false ->
    snd ig = []) /\
   (truthy_opt (environ env (u "WHATSAPP_ACCESS_TOKEN")) = false -> snd wa = [])) /\
  (truthy_opt (environ env (u "WHATSAPP_PHONE_NUMBER_ID")) = false -> snd wa = []).
Proof.
  unfold send_facebook_message, send_instagram_message, send_whatsapp_message,
    get_remote_config, get_config, py_or.
  cbv zeta.
  destruct (environ env (u "FACEBOOK_PAGE_ACCESS_TOKEN")) as [fb|];
    destruct (environ env (u "INSTAGRAM_PAGE_ACCESS_TOKEN")) as [ig|];
    destruct (environ env (u "WHATSAPP_ACCESS_TOKEN")) as [wa|];
    destruct (environ env (u "WHATSAPP_PHONE_NUMBER_ID")) as [pn|];
    repeat (cbn [andb truthy_opt];
            match goal with
            | |- context [truthy ?x] => destruct (truthy x) eqn:?
            end);
    cbn [andb truthy_opt]; rewrite ?post_and_log_returns;
    cbn [fst snd length]; repeat first [split | intro];
    try done; try lia; try congruence.
Qed.

(** X21: configured, [send_whatsapp_message] posts one request.  One to three
    buttons are sent as an interactive message, all of them and in order;
    with more than three buttons the text alone is sent, the buttons are not
    cut down to three; with no buttons the text is sent. *)
Theorem whatsapp_button_rule
    (recipient_phone text access_token phone_number_id : pystr)
    (buttons : option (list Button)) :
  py_or (environ env (u "WHATSAPP_ACCESS_TOKEN"))
        (environ env (u "FACEBOOK_PAGE_ACCESS_TOKEN")) = Some access_token ->
  truthy access_token = true ->
  environ env (u "WHATSAPP_PHONE_NUMBER_ID") = Some phone_number_id ->
  truthy phone_number_id = true ->
  exists request,
    snd (send_whatsapp_message env post recipient_phone text buttons) = [request] /\
    (forall btns,
       buttons = Some btns -> (1 <= length btns <= 3)%nat ->
       json request
       = WhatsAppInteractive recipient_phone text
           (map (fun btn => {| button_type := u "reply"; reply := btn |}) btns)) /\
    (forall btns,
       buttons = Some btns -> (3 < length btns)%nat ->
       json request = WhatsAppText recipient_phone text) /\
    (buttons = None \/ buttons = Some [] ->
     json request = WhatsAppText recipient_phone text).
Proof.
  intros Htoken Ttoken Hphone Tphone.
  unfold send_whatsapp_message, get_remote_config, get_config.
  rewrite Htoken, Hphone, Ttoken, Tphone. cbn [andb].
  rewrite post_and_log_returns. eexists. split; [reflexivity|]. cbn [json].
  split; [|split].
  - intros btns -> Hlen. destruct btns as [|b btns]; [simpl in Hlen; lia|].
    replace (length (b :: btns) <=? 3)%nat with true
      by (symmetry; apply Nat.leb_le; lia).
    cbn [default from_option Datatypes.id]. by rewrite take_ge by lia.
  - intros btns -> Hlen. destruct btns as [|b btns]; [simpl in Hlen; lia|].
    replace (length (b :: btns) <=? 3)%nat with false
      by (symmetry; apply Nat.leb_gt; lia).
    done.
  - by intros [->| ->].
Qed.

End TransportFacts.

Section PromptTransport.

Variable unicode_lower : pystr -> N -> pystr -> pystr.
Variable env : Env.
Variable post : HttpPost -> outcome unit.

(** X22: the prompt always fits the transports: whenever a response carries
    buttons or quick replies, the configured WhatsApp sender posts the text
    with all its buttons as an interactive message, and the configured
    Facebook sender posts the text with all its quick replies. *)
Theorem prompt_fits_transports
    platform user_id message_text postback w r (recipient : pystr)
    (access_token phone_number_id page_access_token : pystr) :
  fst (process_message_with_translation unicode_lower env
         platform user_id message_text postback w) = Returns r ->
  is_Some (buttons r) \/ is_Some (quick_replies r) ->
  py_or (environ env (u "WHATSAPP_ACCESS_TOKEN"))
        (environ env (u "FACEBOOK_PAGE_ACCESS_TOKEN")) = Some access_token ->
  truthy access_token = true ->
  environ env (u "WHATSAPP_PHONE_NUMBER_ID") = Some phone_number_id ->
  truthy phone_number_id = true ->
  environ env (u "FACEBOOK_PAGE_ACCESS_TOKEN") = Some page_access_token ->
  truthy page_access_token = true ->
  exists replies btns whatsapp facebook,
    quick_replies r = Some replies /\ buttons r = Some btns /\
    snd (send_whatsapp_message env post recipient (response r) (buttons r))
    = [whatsapp] /\
    json whatsapp
    = WhatsAppInteractive recipient (response r)
        (map (fun btn => {| button_type := u "reply"; reply := btn |}) btns) /\
    snd (send_facebook_message env post recipient (response r) (quick_replies r))
    = [facebook] /\
    json facebook
    = MessengerMessage recipient (response r)
        (Some (map (fun qr => {| content_type := u "text";
                                 reply_title := title qr;
                                 reply_payload := payload qr |}) replies)).
Proof.
  intros Hrun Hprompt Htoken Ttoken Hphone Tphone Hpage Tpage.
  destruct (response_shape_holds unicode_lower env
              platform user_id message_text postback w) as (r' & Hr' & Hshape).
  rewrite Hrun in Hr'. injection Hr' as <-.
  destruct Hshape as [[Hq Hb]|(replies & btns & _ & Hq & Hb & Hlen & Hle & _)].
  { rewrite Hq, Hb in Hprompt. destruct Hprompt as [[? ?]|[? ?]]; discriminate. }
  exists replies, btns. rewrite Hq, Hb.
  unfold send_whatsapp_message, send_facebook_message, get_remote_config, get_config.
  rewrite Htoken, Hphone, Hpage, Ttoken, Tphone, Tpage. cbn [andb].
  rewrite !post_and_log_returns.
  do 2 eexists. split; [done|]. split; [done|]. split; [reflexivity|].
  cbn [json snd]. split; [|split; [reflexivity|]].
  - destruct btns as [|b btns]; [simpl in Hlen; lia|].
    replace (length (b :: btns) <=? 3)%nat with true
      by (symmetry; apply Nat.leb_le; lia).
    cbn [default from_option Datatypes.id]. by rewrite take_ge by lia.
  - unfold messenger_message. destruct replies as [|q replies]; [|done].
    simpl in Hle. lia.
Qed.

End PromptTransport.

(** ** Further concrete runs *)

Lemma awaiting_calls_no_agent_witness :
  Forall (fun ev => is_agent_event ev = false /\ is_translation_event ev = false)
         (new_events fresh_world
            (snd (process_message_with_translation caseless quiet_env
                    (u "facebook") (u "1001") (u "hello") None fresh_world))).
Proof.
  apply (awaiting_calls_no_agent caseless quiet_env
           (u "facebook") (u "1001") (u "hello") None None fresh_world
           (snd (get_user_language quiet_env (u "facebook") (u "1001") fresh_world))
           (fst (process_message_with_translation caseless quiet_env
                   (u "facebook") (u "1001") (u "hello") None fresh_world))).
  - vm_compute; reflexivity.
  - reflexivity.
  - apply surjective_pairing.
Defined.

Lemma translate_text_english_shortcut_witness :
  translate_text working_env (u "Hello") (u "en") None fresh_world
  = (Returns (u "Hello"),
     extend fresh_world [Call_translate_text (u "Hello") (u "en") None;
                         Call_detect_language (u "Hello");
                         Req_detect (u "Hello")]).
Proof.
  apply (translate_text_english_shortcut working_env (u "Hello") None fresh_world).
  - reflexivity.
  - reflexivity.
  - left. reflexivity.
Defined.

Lemma set_then_get_witness :
  exists w2,
    get_user_language quiet_env (u "facebook") (u "1001")
      (snd (set_user_language quiet_env (u "facebook") (u "1001") (u "ta")
              fresh_world))
    = (Returns (Some (u "ta")), w2) /\
    users w2
    = users (snd (set_user_language quiet_env (u "facebook") (u "1001") (u "ta")
                    fresh_world)).
Proof.
  apply (set_then_get quiet_env (u "facebook") (u "1001") (u "ta") fresh_world).
  - vm_compute; reflexivity.
  - reflexivity.
Defined.

Lemma set_user_language_twice_witness :
  stored_preference
    (snd (set_user_language quiet_env (u "facebook") (u "1001") (u "en")
            (snd (set_user_language quiet_env (u "facebook") (u "1001") (u "ta")
                    fresh_world))))
    (u "facebook") (u "1001")
  = Some (u "en").
Proof.
  set (w1 := snd (set_user_language quiet_env (u "facebook") (u "1001") (u "ta")
                    fresh_world)).
  set (w2 := snd (set_user_language quiet_env (u "facebook") (u "1001") (u "en") w1)).
  apply (set_user_language_twice quiet_env (u "facebook") (u "1001")
           (u "ta") (u "en") fresh_world w1 w2); vm_compute; reflexivity.
Defined.

Lemma set_user_language_merges_witness :
  let w := {| users := {[ (user_details (u "facebook"), u "1001")
                          := {[ u "name" := u "Asha";
                                u "preferred_language" := u "ta" ]} ]};
              trace := [] |} in
  let w1 := snd (set_user_language quiet_env (u "facebook") (u "1001") (u "en") w) in
  stored_preference w1 (u "facebook") (u "1001") = Some (u "en") /\
  users w1 !! (user_details (u "facebook"), u "1001") ≫= (fun doc => doc !! u "name")
  = Some (u "Asha").
Proof.
  intros w w1. split; [vm_compute; reflexivity|].
  destruct (set_user_language_merges quiet_env (u "facebook") (u "1001") (u "en")
              true w w1) as [_ Hfields]; [vm_compute; reflexivity|].
  rewrite (Hfields (u "name")); [vm_compute; reflexivity|].
  vm_compute. discriminate.
Defined.

Lemma invoke_bedrock_agent_answers_witness :
  exists result ws1 ws2,
    fst (invoke_bedrock_agent working_env (u "hi") (u "1001") (Some (u "1001"))
           fresh_world) = Returns result /\
    agent_session_id result = u "1001" /\
    u " Hello there " = ws1 ++ agent_response result ++ ws2 /\
    spaces ws1 /\ spaces ws2.
Proof.
  destruct (invoke_bedrock_agent_answers working_env
              (u "hi") (u "1001") (Some (u "1001")) fresh_world
              (u "configured") (u "configured") (u "configured") (u "configured")
              [Some (u " Hello"); None; Some (u " there ")])
    as (result & ws1 & ws2 & Hrun & Hsession & Hs1 & Hs2 & Hjoin & _);
    try (vm_compute; reflexivity).
  exists result, ws1, ws2. rewrite Hrun. split; [reflexivity|].
  split; [exact Hsession|]. split; [|split; [exact Hs1 | exact Hs2]].
  rewrite <- Hjoin. vm_compute; reflexivity.
Defined.

Lemma free_text_selects_seed_languages_witness :
  is_language_selection_response caseless (u " Tamil") (Some (u "hello"))
  = Some (u "ta") /\
  (u "ta" = u "en" \/ u "ta" = u "ta" \/ u "ta" = u "ml").
Proof.
  split; [vm_compute; reflexivity|].
  apply (free_text_selects_seed_languages caseless (u " Tamil") (Some (u "hello"))).
  - split; vm_compute; reflexivity.
  - vm_compute; reflexivity.
Defined.

Lemma free_text_any_case_witness :
  is_language_selection_response caseless [32; 69; 110; 71; 108; 73; 115; 72; 10] None
  = Some (u "en").
Proof.
  apply (free_text_any_case caseless (u "english") (u "en")
           [32] [69; 110; 71; 108; 73; 115; 72] [10] None).
  - vm_compute; reflexivity.
  - exact I.
  - intros b c a _ Hc. by constructor.
  - repeat constructor.
  - repeat constructor.
  - replace (u "english") with [101; 110; 103; 108; 105; 115; 104]
      by (vm_compute; reflexivity).
    repeat constructor; unfold letter_of; lia.
Defined.


Lemma typed_selection_on_fallback_witness :
  exists w',
    process_message_with_translation caseless quiet_env
      (u "facebook") (u "1001") (u "Tamil") None fresh_world
    = (Returns
         (text_only
            (u "✅ மொழி தமிழ் என அமைக்கப்பட்டது! இன்று நான் உங்களுக்கு எப்படி உதவ முடியும்?")),
       w').
Proof.
  set (w0 := snd (get_user_language quiet_env (u "facebook") (u "1001") fresh_world)).
  destruct (typed_selection_on_fallback caseless quiet_env
              (u "facebook") (u "1001") (u "Tamil") None None (u "ta")
              fresh_world w0) as (confirmation & w' & Hc & Hrun);
    try (vm_compute; reflexivity); try exact I.
  - left. reflexivity.
  - exists w'. rewrite Hrun. do 3 f_equal.
    assert (confirmations !! u "ta"
            = Some (u "✅ மொழி தமிழ் என அமைக்கப்பட்டது! இன்று நான் உங்களுக்கு எப்படி உதவ முடியும்?"))
      as Hta by (vm_compute; reflexivity).
    rewrite Hta in Hc. by injection Hc.
Defined.

Lemma whatsapp_button_rule_witness :
  exists request,
    send_whatsapp_message working_env failing_post
      (u "919000000001") (u "Choose") (Some seed_buttons)
    = (Returns tt, [request]) /\
    json request
    = WhatsAppInteractive (u "919000000001") (u "Choose")
        (map (fun btn => {| button_type := u "reply"; reply := btn |})
             seed_buttons).
Proof.
  destruct (whatsapp_button_rule working_env failing_post
              (u "919000000001") (u "Choose") (u "configured") (u "configured")
              (Some seed_buttons))
    as (request & Hposted & Hfew & _); try (vm_compute; reflexivity).
  exists request. split.
  - rewrite (surjective_pairing (send_whatsapp_message _ _ _ _ _)), Hposted.
    f_equal.
  - apply Hfew; [reflexivity | simpl; lia].
Defined.

Lemma prompt_fits_transports_witness :
  exists r whatsapp facebook,
    fst (process_message_with_translation caseless working_env
           (u "whatsapp") (u "919000000001") (u "hello") None fresh_world)
    = Returns r /\
    snd (send_whatsapp_message working_env failing_post
           (u "919000000001") (response r) (buttons r)) = [whatsapp] /\
    json whatsapp
    = WhatsAppInteractive (u "919000000001") prompt_text
        [ {| button_type := u "reply";
             reply := {| id := u "lang_hi"; button_title := u "Hindi" |} |} ] /\
    snd (send_facebook_message working_env failing_post
           (u "919000000001") (response r) (quick_replies r)) = [facebook] /\
    json facebook
    = MessengerMessage (u "919000000001") prompt_text
        (Some [ {| content_type := u "text"; reply_title := u "Hindi";
                   reply_payload := u "LANG_hi" |} ]).
Proof.
  set (r := {| response := prompt_text;
               quick_replies := Some [ {| title := u "Hindi"; payload := u "LANG_hi" |} ];
               buttons := Some [ {| id := u "lang_hi"; button_title := u "Hindi" |} ] |}).
  destruct (prompt_fits_transports caseless working_env failing_post
              (u "whatsapp") (u "919000000001") (u "hello") None fresh_world r
              (u "919000000001") (u "configured") (u "configured") (u "configured"))
    as (replies & btns & whatsapp & facebook & Hq & Hb & Hw & Hwj & Hf & Hfj);
    try (vm_compute; reflexivity).
  { left. by eexists. }
  simpl in Hq, Hb. injection Hq as <-. injection Hb as <-.
  exists r, whatsapp, facebook.
  split; [vm_compute; reflexivity|]. split; [exact Hw|]. split; [exact Hwj|].
  split; [exact Hf | exact Hfj].
Defined.
